(** * econstruct: the code-to-energy-flow derivation and the upload form

    A shallow embedding of [src/DashboardCharts.jsx] and
    [src/UploadAndPickLeaflet.jsx].

    JavaScript numbers are IEEE 754 binary64 values.  They are modelled with
    the standard library's [spec_float] (sign, mantissa, exponent, computed in
    [Z]) at precision 53 and maximal exponent 1024, so that every arithmetic
    expression of the source is evaluated with the rounding the engine
    performs.  Strings are lists of characters. *)

From Stdlib Require Import ZArith Bool Ascii String List Lia.
From Stdlib Require Import Floats.SpecFloat DecimalString.
Import ListNotations.

Local Open Scope Z_scope.

(** ** JavaScript numbers *)

Module Num.

Definition number : Type := spec_float.

Definition prec : Z := 53.
Definition emax : Z := 1024.

Definition NaN : number := S754_nan.
Definition pzero : number := S754_zero false.

(** The number denoted by an integer literal (exact below 2^53). *)
Definition of_Z (z : Z) : number := binary_normalize prec emax z 0 false.

Definition add : number -> number -> number := SFadd prec emax.
Definition sub : number -> number -> number := SFsub prec emax.
Definition mul : number -> number -> number := SFmul prec emax.
Definition div : number -> number -> number := SFdiv prec emax.

(** A decimal literal [d * 10^-k], e.g. [0.11] is [decimal 11 2]: the
    binary64 value nearest to it, which a correctly rounded division of two
    exactly representable integers yields. *)
Definition decimal (d : Z) (k : nat) : number :=
  div (of_Z d) (of_Z (10 ^ Z.of_nat k)).

(** [<], [<=], [>] and [===] on numbers; all are false on NaN. *)
Definition ltb : number -> number -> bool := SFltb.
Definition leb : number -> number -> bool := SFleb.
Definition gtb (x y : number) : bool := SFltb y x.
Definition eqb : number -> number -> bool := SFeqb.

Definition is_nan (x : number) : bool :=
  match x with S754_nan => true | _ => false end.

Definition is_finite (x : number) : bool :=
  match x with
  | S754_zero _ | S754_finite _ _ _ => true
  | _ => false
  end.

Definition is_neg_zero (x : number) : bool :=
  match x with S754_zero true => true | _ => false end.

(** The mathematical integer [floor v] of a finite value [(-1)^s m 2^e]. *)
Definition floorZ (s : bool) (m : positive) (e : Z) : Z :=
  match e with
  | Zneg k => Z.shiftr (cond_Zopp s (Zpos m)) (Zpos k)
  | _ => Z.shiftl (cond_Zopp s (Zpos m)) e
  end.

(** [Math.floor]: NaN, the infinities and both zeros are returned as they
    are, an integral value too. *)
Definition floor (x : number) : number :=
  match x with
  | S754_finite s m e =>
      match e with
      | Zneg _ => of_Z (floorZ s m e)
      | _ => x
      end
  | _ => x
  end.

(** [Math.round]: the integral number closest to [x], ties towards
    +infinity; a result of zero keeps the sign of [x]. *)
Definition round (x : number) : number :=
  match x with
  | S754_finite s m e =>
      match e with
      | Zneg k =>
          let z := Z.shiftr (2 * cond_Zopp s (Zpos m) + 2 ^ Zpos k)
                            (Zpos k + 1) in
          if z =? 0 then S754_zero s else of_Z z
      | _ => x
      end
  | _ => x
  end.

(** [Math.max] and [Math.min] of two arguments: NaN if either is NaN, and
    +0 counts as larger than -0. *)
Definition max (a b : number) : number :=
  if is_nan a || is_nan b then NaN
  else if ltb a b then b
  else if ltb b a then a
  else if is_neg_zero a then b else a.

Definition min (a b : number) : number :=
  if is_nan a || is_nan b then NaN
  else if ltb a b then a
  else if ltb b a then b
  else if is_neg_zero a then a else b.

(** The integer a finite value [(-1)^s m 2^e] is, if it is one. *)
Definition integral (s : bool) (m : positive) (e : Z) : option Z :=
  match e with
  | Zneg k =>
      if Z.land (Zpos m) (Z.ones (Zpos k)) =? 0
      then Some (cond_Zopp s (Z.shiftr (Zpos m) (Zpos k)))
      else None
  | _ => Some (cond_Zopp s (Z.shiftl (Zpos m) e))
  end.

(** The sign bit of a number that is not NaN is [s]. *)
Definition has_sign (s : bool) (x : number) : bool :=
  match x with
  | S754_zero s' | S754_infinity s' | S754_finite s' _ _ => Bool.eqb s s'
  | S754_nan => false
  end.

(** [Math.PI], the binary64 value 0x1.921fb54442d18p+1. *)
Definition PI : number := S754_finite false 7074237752028440 (-51).

End Num.

Import Num.

(** ** JavaScript strings and the regular expressions of the source *)

Module Str.

Definition str : Type := list ascii.

(** A string literal of the source. *)
Definition lit (s : string) : str := list_ascii_of_string s.

Definition is_digit (c : ascii) : bool :=
  let n := nat_of_ascii c in (48 <=? n)%nat && (n <=? 57)%nat.

(** White space and line terminators among the characters modelled:
    TAB, LF, VT, FF, CR, SP and NBSP. *)
Definition is_space (c : ascii) : bool :=
  let n := nat_of_ascii c in
  ((9 <=? n)%nat && (n <=? 13)%nat) || (n =? 32)%nat || (n =? 160)%nat.

Definition digit_value (c : ascii) : Z := Z.of_nat (nat_of_ascii c) - 48.

(** [!s]: only the empty string is falsy. *)
Definition is_empty (s : str) : bool :=
  match s with [] => true | _ => false end.

(** [s.padStart(maxLength, fillString)]: the filler is [fillString]
    repeated and cut to the missing length; [s] is returned as it is when
    it is long enough or the filler is empty. *)
Definition padStart (maxLength : nat) (fillString : str) (s : str) : str :=
  if (maxLength <=? length s)%nat then s
  else match fillString with
       | [] => s
       | _ =>
           let fillLen := (maxLength - length s)%nat in
           firstn fillLen (concat (repeat fillString fillLen)) ++ s
       end.

(** [s.slice(from, to)] for non-negative integer arguments. *)
Definition slice (from to : nat) (s : str) : str :=
  firstn (to - from) (skipn from s).

(** The decimal representation of an integer, as [String(n)] or a template
    literal prints an integral number. *)
Definition show_Z (z : Z) : str :=
  list_ascii_of_string (DecimalString.NilZero.string_of_int (Z.to_int z)).

(** The regular expressions used in the source: character classes, greedy
    bounded repetition of a class, concatenation and [$]. *)
Inductive re : Type :=
| Class (p : ascii -> bool)
| Repeat (p : ascii -> bool) (lo : nat) (hi : option nat)
| Cat (r1 r2 : re)
| EndOfInput.

Definition may_take (hi : option nat) : bool :=
  match hi with Some O => false | _ => true end.

Definition taken (hi : option nat) : option nat :=
  match hi with Some n => Some (pred n) | None => None end.

(** A count within the upper bound of a repetition. *)
Definition fits (hi : option nat) (n : nat) : bool :=
  match hi with Some h => (n <=? h)%nat | None => true end.

Section Matcher.
Context {A : Type}.

(** Greedy repetition with backtracking: take one more character when
    allowed and let the rest of the pattern succeed, else stop here if
    the lower bound is met. *)
Fixpoint repeat_m (p : ascii -> bool) (lo : nat) (hi : option nat)
         (s : str) (k : str -> option A) {struct s} : option A :=
  let stop := match lo with O => k s | _ => None end in
  match s with
  | c :: s' =>
      if p c && may_take hi then
        match repeat_m p (pred lo) (taken hi) s' k with
        | Some r => Some r
        | None => stop
        end
      else stop
  | [] => stop
  end.

(** The backtracking matcher, anchored at the start of [s]; [k] is the
    continuation matching what follows. *)
Fixpoint matcher (r : re) (s : str) (k : str -> option A) : option A :=
  match r with
  | Class p =>
      match s with
      | c :: s' => if p c then k s' else None
      | [] => None
      end
  | Repeat p lo hi => repeat_m p lo hi s k
  | Cat r1 r2 => matcher r1 s (fun s' => matcher r2 s' k)
  | EndOfInput => match s with [] => k [] | _ => None end
  end.
End Matcher.

(** A match of [r] starting at the first character of [s]: the matched text
    and what remains after it. *)
Definition match_here (r : re) (s : str) : option (str * str) :=
  match matcher r s (fun rest => Some rest) with
  | Some rest => Some (firstn (length s - length rest) s, rest)
  | None => None
  end.

(** [r.exec(s)] for a non-global expression: the leftmost match, as the
    text before it, the matched text and the text after it. *)
Fixpoint exec (r : re) (s : str) : option (str * str * str) :=
  match match_here r s with
  | Some (m, rest) => Some ([], m, rest)
  | None =>
      match s with
      | [] => None
      | c :: s' =>
          match exec r s' with
          | Some (pre, m, rest) => Some (c :: pre, m, rest)
          | None => None
          end
      end
  end.

(** [s.replace(r, by)] for a non-global [r]: the first match only. *)
Definition replace (r : re) (by_ : str) (s : str) : str :=
  match exec r s with
  | Some (pre, _, rest) => pre ++ by_ ++ rest
  | None => s
  end.

(** [s.replace(r, by)] for a global [r]: every match from left to right;
    after an empty match the search moves one character on.  [fuel] bounds
    the number of search positions. *)
Fixpoint replace_all_from (fuel : nat) (r : re) (by_ : str) (s : str) : str :=
  match fuel with
  | O => s
  | S fuel' =>
      match match_here r s, s with
      | Some ([], _), [] => by_
      | Some ([], _), c :: s' => by_ ++ c :: replace_all_from fuel' r by_ s'
      | Some (_ :: _, rest), _ => by_ ++ replace_all_from fuel' r by_ rest
      | None, [] => []
      | None, c :: s' => c :: replace_all_from fuel' r by_ s'
      end
  end.

Definition replace_all (r : re) (by_ : str) (s : str) : str :=
  replace_all_from (S (length s)) r by_ s.

(** [s.match(r)] for a non-global [r] whose single group spans the whole
    pattern: the text of group 1, or [None] for [null]. *)
Definition match_group1 (r : re) (s : str) : option str :=
  match exec r s with
  | Some (_, m, _) => Some m
  | None => None
  end.

(** [Number(c)] of a one-character string: a digit gives its value, white
    space gives 0, anything else NaN. *)
Definition Number_char (c : ascii) : number :=
  if is_digit c then Num.of_Z (digit_value c)
  else if is_space c then pzero
  else NaN.

(** [parseInt(s, 10)]: leading white space is skipped, a sign is read, then
    the longest run of digits; NaN when that run is empty. *)
Fixpoint skip_space (s : str) : str :=
  match s with
  | c :: s' => if is_space c then skip_space s' else s
  | [] => []
  end.

Fixpoint leading_digits (s : str) : str :=
  match s with
  | c :: s' => if is_digit c then c :: leading_digits s' else []
  | [] => []
  end.

Definition mathInt (ds : str) : Z :=
  fold_left (fun acc c => 10 * acc + digit_value c) ds 0.

Definition parseInt10 (s : str) : number :=
  let s1 := skip_space s in
  let '(neg, s2) :=
    match s1 with
    | "-"%char :: t => (true, t)
    | "+"%char :: t => (false, t)
    | _ => (false, s1)
    end in
  match leading_digits s2 with
  | [] => NaN
  | ds => binary_normalize prec emax (cond_Zopp neg (mathInt ds)) 0 neg
  end.

End Str.

Import Str.

(** ** src/DashboardCharts.jsx *)

Module DashboardCharts.

(** [const EF_GRID = 0.45] *)
Definition EF_GRID : number := decimal 45 2.

(** [/\D/g] *)
Definition re_non_digit : re := Class (fun c => negb (is_digit c)).

Record Digits :=
  { code : str; homeKWh : number; solarKWh : number; gridKWh : number }.

(** [useDigitsToKwh(code)].  The route parameter is a string or
    [undefined] ([None]); [code || ""] replaces [undefined] and the empty
    string by [""].  [s.split("").map(Number)] is the list of the numbers of
    the characters of [s].  An element missing from the destructured array
    would be [undefined], which every later use converts to NaN. *)
Definition useDigitsToKwh (code : option str) : Digits :=
  let s := slice 0 3 (padStart 3 (lit "0")
             (replace_all re_non_digit (lit "")
                (match code with Some c => c | None => lit "" end))) in
  let ns := map Number_char s in
  {| code := s;
     homeKWh := nth 0 ns NaN;
     solarKWh := nth 1 ns NaN;
     gridKWh := nth 2 ns NaN |}.

Record SolarFlows := { toBattery : number; toHome : number; toGrid : number }.

Record HomeSources :=
  { fromSolar : number; fromBattery : number; fromGrid : number }.

Definition allocSolarFlows (solarKWh : number) : SolarFlows :=
  let toBattery := floor (mul solarKWh (decimal 11 2)) in
  let toHome := floor (mul solarKWh (decimal 19 2)) in
  let toGrid := max (sub (sub solarKWh toBattery) toHome) (of_Z 0) in
  {| toBattery := toBattery; toHome := toHome; toGrid := toGrid |}.

Definition allocHomeSources (homeKWh fromSolar fromBattery : number)
  : HomeSources :=
  let s := min fromSolar (floor (mul homeKWh (decimal 4 1))) in
  let b := min fromBattery (floor (mul homeKWh (decimal 25 2))) in
  let g := max (sub (sub homeKWh s) b) (of_Z 0) in
  {| fromSolar := s; fromBattery := b; fromGrid := g |}.

Record WeekPoint :=
  { w_t : str; temperature : number; humidity : number; grid : number }.

Record DayPoint := { d_t : str; d_toHome : number; orientation : number }.

Record Slice := { name : str; value : number }.

Record GridBar := { g_name : str; g_fromGrid : number; g_toGrid : number }.

Record Bundle :=
  { normalized : str;
    digits : Digits;
    solarAllocation : SolarFlows;
    homeAllocation : HomeSources;
    totalKWh : number;
    emissionsKg : number;
    avoidedKg : number;
    series : list WeekPoint;
    daySeries : list DayPoint;
    solarPie : list Slice;
    homePie : list Slice;
    gridBar : list GridBar;
    netExported : number;
    gaugeVal : number }.

Section Math.

(** What the engine computes for [Math.sin] and [Math.cos] at a finite
    argument other than zero: the language standard leaves these values to
    the implementation. *)
Variable sin_impl cos_impl : number -> number.

(** [Math.sin]: NaN at NaN and the infinities, the argument itself at
    either zero. *)
Definition Math_sin (x : number) : number :=
  match x with
  | S754_nan | S754_infinity _ => NaN
  | S754_zero _ => x
  | S754_finite _ _ _ => sin_impl x
  end.

(** [Math.cos]: NaN at NaN and the infinities, 1 at either zero. *)
Definition Math_cos (x : number) : number :=
  match x with
  | S754_nan | S754_infinity _ => NaN
  | S754_zero _ => of_Z 1
  | S754_finite _ _ _ => cos_impl x
  end.

(** One turn of the loop of [buildSeries], for the loop counter [i]. *)
Definition weekPoint (homeKWh solarKWh gridKWh : number) (i : Z)
  : WeekPoint :=
  let t := i + 1 in
  {| w_t := lit "W" ++ show_Z t;
     temperature :=
       max (of_Z 0)
         (add solarKWh
            (round (mul (Math_sin (mul (div (of_Z t) (of_Z 3)) PI))
                        (div solarKWh (of_Z 2)))));
     humidity :=
       max (of_Z 0)
         (add homeKWh
            (round (mul (Math_cos (mul (div (of_Z t) (of_Z 4)) PI))
                        (div homeKWh (of_Z 2)))));
     grid :=
       max (of_Z 0)
         (add gridKWh
            (round (mul (Math_sin (mul (div (of_Z t) (of_Z 5)) PI))
                        (div gridKWh (of_Z 2))))) |}.

(** The [for] loop of [buildSeries]: [n] turns are left, the counter is
    [i], [out] is the array built so far; each turn pushes one record. *)
Fixpoint buildSeries_loop (homeKWh solarKWh gridKWh : number)
         (n : nat) (i : Z) (out : list WeekPoint) : list WeekPoint :=
  match n with
  | O => out
  | S n' =>
      buildSeries_loop homeKWh solarKWh gridKWh n' (i + 1)
        (out ++ [weekPoint homeKWh solarKWh gridKWh i])
  end.

Definition buildSeries (homeKWh solarKWh gridKWh : number)
  : list WeekPoint :=
  let pts := 12%nat in
  buildSeries_loop homeKWh solarKWh gridKWh pts 0 [].

(** The callback of [Array.from({ length: 10 }, (_, i) => ...)]. *)
Definition dayPoint (toHome toGrid : number) (i : Z) : DayPoint :=
  {| d_t := show_Z i ++ lit ":00";
     d_toHome :=
       max (of_Z 0)
         (round (add (mul (div toHome (of_Z 5))
                          (Math_sin (mul (div (of_Z i) (of_Z 3)) PI)))
                     (div toHome (of_Z 2))));
     orientation :=
       max (of_Z 0)
         (round (add (mul (div toGrid (of_Z 5))
                          (Math_cos (mul (div (of_Z i) (of_Z 3)) PI)))
                     (div toGrid (of_Z 2)))) |}.

(** The values the component [DashboardCharts] computes from the route
    parameter before it renders them. *)
Definition DashboardCharts (code : option str) : Bundle :=
  let d := useDigitsToKwh code in
  let sf := allocSolarFlows (solarKWh d) in
  let hs := allocHomeSources (homeKWh d) (toHome sf) (toBattery sf) in
  {| normalized := DashboardCharts.code d;
     digits := d;
     solarAllocation := sf;
     homeAllocation := hs;
     totalKWh := add (add (homeKWh d) (solarKWh d)) (gridKWh d);
     emissionsKg := mul (add (homeKWh d) (gridKWh d)) EF_GRID;
     avoidedKg := mul (solarKWh d) EF_GRID;
     series := buildSeries (homeKWh d) (solarKWh d) (gridKWh d);
     daySeries :=
       map (fun i => dayPoint (toHome sf) (toGrid sf) (Z.of_nat i))
           (seq 0 10);
     solarPie :=
       [ {| name := lit "To Battery"; value := toBattery sf |};
         {| name := lit "To Home"; value := toHome sf |};
         {| name := lit "To Grid"; value := toGrid sf |} ];
     homePie :=
       [ {| name := lit "From Solar"; value := fromSolar hs |};
         {| name := lit "From Battery"; value := fromBattery hs |};
         {| name := lit "From Grid"; value := fromGrid hs |} ];
     gridBar :=
       [ {| g_name := lit "Grid";
            g_fromGrid := gridKWh d;
            g_toGrid := toGrid sf |} ];
     netExported := max (sub (toGrid sf) (gridKWh d)) (of_Z 0);
     gaugeVal := min (of_Z 100) (mul (toBattery sf) (of_Z 10)) |}.

End Math.

End DashboardCharts.

(** ** src/UploadAndPickLeaflet.jsx *)

Module UploadAndPickLeaflet.

(** [String(x)] of a number, for NaN, the infinities, the zeros and the
    integral values below 10^21, which are printed in plain decimal
    notation; [None] for the other numbers, whose printing is not
    modelled. *)
Definition String_number (x : number) : option str :=
  match x with
  | S754_nan => Some (lit "NaN")
  | S754_infinity s => Some (lit (if s then "-Infinity" else "Infinity"))
  | S754_zero _ => Some (lit "0")
  | S754_finite s m e =>
      match integral s m e with
      | Some z => if Z.abs z <? 10 ^ 21 then Some (show_Z z) else None
      | None => None
      end
  end.

Definition is_dot (c : ascii) : bool := Ascii.eqb c ".".

(** [/\.[^.]+$/] *)
Definition re_extension : re :=
  Cat (Class is_dot)
      (Cat (Repeat (fun c => negb (is_dot c)) 1 None) EndOfInput).

(** [/(\d{1,3})$/] *)
Definition re_trailing : re :=
  Cat (Repeat is_digit 1 (Some 3%nat)) EndOfInput.

(** The object [{ num, error }]; [num] is [null] ([None]) or a number.
    The en dash of the two messages is written as a hyphen. *)
Record Extracted := { num : option number; error : str }.

Definition extractTrailingNumber (name : str) : Extracted :=
  let base := replace re_extension (lit "") name in
  match match_group1 re_trailing base with
  | None =>
      {| num := None;
         error := lit "Filename must end in a number (001-100)." |}
  | Some m1 =>
      let n := parseInt10 m1 in
      if is_nan n || ltb n (of_Z 1) || gtb n (of_Z 100)
      then {| num := None; error := lit "Number must be 001-100." |}
      else {| num := Some n; error := lit "" |}
  end.

Record LatLng := { lat : number; lng : number }.

(** The state of the component, one field per [useState]. *)
Record State :=
  { fileName : str;
    fileNumber : option number;
    fileError : str;
    marker : option LatLng;
    center : LatLng;
    search : str;
    searchError : str }.

Definition initial : State :=
  {| fileName := lit "";
     fileNumber := None;
     fileError := lit "";
     marker := None;
     center := {| lat := SFopp (decimal 3778737 5);
                  lng := decimal 17528221 5 |};
     search := lit "";
     searchError := lit "" |}.

(** What the geocoding request of [doSearch] comes back with: an exception
    ([fetch] or [res.json()] threw), a reply that is not a non-empty array,
    or a first result, given by the numbers [parseFloat] makes of its [lat]
    and [lon]. *)
Inductive SearchReply : Type :=
| Threw
| NoResults
| Found (lat lon : number).

(** The events the component reacts to.  [FileChange] carries the names of
    the selected files ([e.target.files]); [SearchClick] is the synchronous
    part of [doSearch] and [SearchSettled] the part after its [await]s.  A
    request is sent only when the search text is not blank; replies are not
    tied to requests here, so the states reached below include every state
    of the component. *)
Inductive Event : Type :=
| FileChange (files : list str)
| MapClick (p : LatLng)
| SearchInput (text : str)
| SearchClick
| SearchSettled (r : SearchReply).

Definition onFileChange (files : list str) (st : State) : State :=
  match files with
  | [] => st
  | f :: _ =>
      let x := extractTrailingNumber f in
      {| fileName := f;
         fileNumber := num x;
         fileError := error x;
         marker := marker st;
         center := center st;
         search := search st;
         searchError := searchError st |}
  end.

Definition setMarker (p : LatLng) (st : State) : State :=
  {| fileName := fileName st; fileNumber := fileNumber st;
     fileError := fileError st; marker := Some p; center := center st;
     search := search st; searchError := searchError st |}.

Definition setCenter (p : LatLng) (st : State) : State :=
  {| fileName := fileName st; fileNumber := fileNumber st;
     fileError := fileError st; marker := marker st; center := p;
     search := search st; searchError := searchError st |}.

Definition setSearch (text : str) (st : State) : State :=
  {| fileName := fileName st; fileNumber := fileNumber st;
     fileError := fileError st; marker := marker st; center := center st;
     search := text; searchError := searchError st |}.

Definition setSearchError (msg : str) (st : State) : State :=
  {| fileName := fileName st; fileNumber := fileNumber st;
     fileError := fileError st; marker := marker st; center := center st;
     search := search st; searchError := msg |}.

Definition doSearch_settled (r : SearchReply) (st : State) : State :=
  match r with
  | Threw => setSearchError (lit "Search failed.") st
  | NoResults => setSearchError (lit "No results.") st
  | Found la lo =>
      let pos := {| lat := la; lng := lo |} in
      setMarker pos (setCenter pos st)
  end.

Definition step (st : State) (ev : Event) : State :=
  match ev with
  | FileChange files => onFileChange files st
  | MapClick p => setMarker p st
  | SearchInput text => setSearch text st
  | SearchClick => setSearchError (lit "") st
  | SearchSettled r => doSearch_settled r st
  end.

(** The states the component can be in: those a sequence of events leads
    to from the initial one. *)
Definition run (evs : list Event) : State := fold_left step evs initial.

Definition reachable (st : State) : Prop := exists evs, st = run evs.

Definition is_null {A : Type} (x : option A) : bool :=
  match x with None => true | Some _ => false end.

(** [fileNumber !== null && !fileError && !!marker] *)
Definition canContinue (st : State) : bool :=
  negb (is_null (fileNumber st)) && is_empty (fileError st)
  && negb (is_null (marker st)).

(** The call [navigate(`/dashboard/${code}`, { state })]. *)
Record Navigation :=
  { path : str; nav_fileName : str; nav_location : LatLng }.

Inductive Outcome : Type :=
| Stays
| Navigates (n : Navigation)
| NotModelled.

(** [handleContinue]: nothing happens unless [canContinue] holds and there
    is a marker; [String(null)] is ["null"]. *)
Definition handleContinue (st : State) : Outcome :=
  match marker st with
  | None => Stays
  | Some mk =>
      if negb (canContinue st) then Stays
      else
        match
          match fileNumber st with
          | Some n => String_number n
          | None => Some (lit "null")
          end
        with
        | Some s =>
            Navigates
              {| path := lit "/dashboard/" ++ padStart 3 (lit "0") s;
                 nav_fileName := fileName st;
                 nav_location := mk |}
        | None => NotModelled
        end
  end.

End UploadAndPickLeaflet.

(** ** The values the two components render

    The remaining expressions of the JSX of [src/DashboardCharts.jsx] and
    [src/UploadAndPickLeaflet.jsx], with the two built-ins they need. *)

Module Rendered.

(** [n % d] on numbers: NaN when an operand is NaN, the dividend is infinite
    or the divisor is zero; the dividend when the divisor is infinite or the
    dividend is zero; else the exact remainder of the truncated division,
    with the sign of the dividend. *)
Definition remainder (n d : number) : number :=
  match n, d with
  | S754_nan, _ | _, S754_nan => NaN
  | S754_infinity _, _ => NaN
  | _, S754_zero _ => NaN
  | _, S754_infinity _ => n
  | S754_zero _, _ => n
  | S754_finite sn mn en, S754_finite _ md ed =>
      let e0 := Z.min en ed in
      let r := Z.rem (Zpos (fst (shl_align mn en e0)))
                     (Zpos (fst (shl_align md ed e0))) in
      if r =? 0 then S754_zero sn
      else binary_normalize prec emax (cond_Zopp sn r) e0 false
  end.

(** The integer nearest to [m 2^e 10^f], the larger one of two. *)
Definition scaled (m : positive) (e : Z) (f : nat) : Z :=
  let v := Zpos m * 10 ^ Z.of_nat f in
  match e with
  | Zneg k => Z.shiftr (2 * v + 2 ^ Zpos k) (Zpos k + 1)
  | _ => Z.shiftl v e
  end.

(** [x.toFixed(f)] for [f] from 0 to 100: the digits of the integer nearest
    to [|x| 10^f], padded with zeros to [f + 1] characters, with a point
    before the last [f]; a minus sign for a negative [x]; [String(x)] for
    NaN and the infinities.  [None] where the method throws ([f] above 100)
    or prints in exponent notation (from 10^21). *)
Definition toFixed (f : nat) (x : number) : option str :=
  if (100 <? f)%nat then None
  else
    match x with
    | S754_nan | S754_infinity _ => UploadAndPickLeaflet.String_number x
    | S754_zero _ | S754_finite _ _ _ =>
        let '(neg, n) :=
          match x with
          | S754_finite s m e => (s, scaled m e f)
          | _ => (false, 0)
          end in
        if leb (of_Z (10 ^ 21)) (SFabs x) then None
        else
          let m := padStart (f + 1) (lit "0") (show_Z n) in
          let k := length m in
          Some ((if neg then lit "-" else lit "")
                ++ (match f with
                    | O => m
                    | _ => firstn (k - f) m ++ lit "." ++ skipn (k - f) m
                    end))
    end.

(** The card "Environmental benefits" and the card "Work orders" of the
    dashboard. *)
Record Cards :=
  { coal : option str;
    co2 : option str;
    trees : number;
    executing : number;
    finished : number }.


Definition cards (b : DashboardCharts.Bundle) : Cards :=
  let d := DashboardCharts.digits b in
  {| coal := toFixed 2 (mul (DashboardCharts.solarKWh d) (decimal 3 4));
     co2 := toFixed 2 (div (DashboardCharts.avoidedKg b) (of_Z 1000));
     trees := round (div (DashboardCharts.avoidedKg b) (of_Z 21));
     executing :=
       add (remainder (DashboardCharts.solarKWh d) (of_Z 5)) (of_Z 1);
     finished :=
       add (remainder (DashboardCharts.homeKWh d) (of_Z 5)) (of_Z 1) |}.

(** What the upload form shows under the file input: the message when there
    is one, else the detected number padded to three characters when there
    is a number, else nothing. *)
Inductive StatusLine : Type :=
| ShowsError (msg : str)
| ShowsNumber (padded : option str)
| ShowsNothing.

Definition statusLine (st : UploadAndPickLeaflet.State) : StatusLine :=
  if negb (is_empty (UploadAndPickLeaflet.fileError st))
  then ShowsError (UploadAndPickLeaflet.fileError st)
  else
    match UploadAndPickLeaflet.fileNumber st with
    | Some n =>
        ShowsNumber
          (option_map (padStart 3 (lit "0"))
             (UploadAndPickLeaflet.String_number n))
    | None => ShowsNothing
    end.

End Rendered.

(** ** Observations on a sequence of events of the upload form *)

Module Trace.

(** A string without a dot. *)
Definition no_dot (s : str) : bool :=
  forallb (fun x => negb (UploadAndPickLeaflet.is_dot x)) s.

(** The name of the file chosen last, if a file was ever chosen. *)
Definition last_file (evs : list UploadAndPickLeaflet.Event) : option str :=
  fold_left
    (fun acc ev =>
       match ev with
       | UploadAndPickLeaflet.FileChange (f :: _) => Some f
       | _ => acc
       end) evs None.

(** An event that sets the marker: a click on the map or a search that
    found a place. *)
Definition sets_marker (ev : UploadAndPickLeaflet.Event) : bool :=
  match ev with
  | UploadAndPickLeaflet.MapClick _ => true
  | UploadAndPickLeaflet.SearchSettled (UploadAndPickLeaflet.Found _ _) =>
      true
  | _ => false
  end.

Definition picked (evs : list UploadAndPickLeaflet.Event) : bool :=
  existsb sets_marker evs.

End Trace.

(** ** A reference engine

    One concrete choice for the implementation-defined part of [Math.sin] and
    [Math.cos]: the argument is reduced by whole turns, a Taylor polynomial is
    evaluated in binary64 by Horner's rule, and the result is kept within
    [-1, 1].  The theorems below hold for every engine; this one serves to
    evaluate them on concrete inputs. *)

Module ReferenceEngine.

Definition two_pi : number := mul (of_Z 2) PI.

Definition reduce (x : number) : number :=
  sub x (mul two_pi (round (div x two_pi))).

(** [1 - x2/(k(k+1)) (1 - x2/((k+2)(k+3)) (1 - ...))], [n] factors deep. *)
Fixpoint horner (n : nat) (k : Z) (x2 : number) : number :=
  match n with
  | O => of_Z 1
  | S n' =>
      sub (of_Z 1)
          (mul (div x2 (of_Z (k * (k + 1)))) (horner n' (k + 2) x2))
  end.

Definition clamp (y : number) : number :=
  if is_nan y then pzero
  else if ltb y (of_Z (-1)) then of_Z (-1)
  else if ltb (of_Z 1) y then of_Z 1
  else y.

Definition sin_ref (x : number) : number :=
  let r := reduce x in clamp (mul r (horner 12 2 (mul r r))).

Definition cos_ref (x : number) : number :=
  let r := reduce x in clamp (horner 12 1 (mul r r)).

End ReferenceEngine.

(** ** The specification's wording

    Definitions that follow the words of the specification, to compare the
    code with. *)

Module Spec.

(** "Removes every non-digit character, left-pads the remainder with '0'
    to at least 3 characters, then takes the first 3 characters." *)
Definition normalize (s : str) : str :=
  let ds := filter is_digit s in
  firstn 3 (repeat "0"%char (3 - length ds) ++ ds).

(** The character of a decimal digit. *)
Definition digit_char (d : Z) : ascii := ascii_of_nat (48 + Z.to_nat d).

(** A number below 1000 "zero-padded to 3 digits". *)
Definition three_digits (n : Z) : str :=
  [digit_char (n / 100); digit_char (n / 10 mod 10); digit_char (n mod 10)].

(** "base + round(sin_or_cos(phase(i)) * base/2), clamped to >= 0", for
    the value [trig] of the sine or cosine. *)
Definition perturbed (trig base : number) : number :=
  max (of_Z 0) (add base (round (mul trig (div base (of_Z 2))))).

(** The phase [(j / period) * pi] of a point. *)
Definition phase (j period : Z) : number :=
  mul (div (of_Z j) (of_Z period)) PI.

(** The value of an hourly point as the code computes it: a fifth of the
    base times the sine or cosine, plus half the base, rounded, clamped. *)
Definition swung (trig base : number) : number :=
  max (of_Z 0)
      (round (add (mul (div base (of_Z 5)) trig) (div base (of_Z 2)))).

(** "The base name (extension stripped)": the name up to its last dot,
    when something follows that dot. *)
Fixpoint base_name (name : str) : str :=
  match name with
  | [] => []
  | c :: rest =>
      if Ascii.eqb c "." && negb (is_empty rest)
         && forallb (fun x => negb (Ascii.eqb x ".")) rest
      then []
      else c :: base_name rest
  end.

(** The digits a name "ends in", at most three of them: the last three
    characters of its final run of digits, or the whole run if shorter. *)
Definition trailing_digits (s : str) : str :=
  rev (firstn 3 (leading_digits (rev s))).

(** The number a run of digits denotes. *)
Definition value (ds : str) : Z :=
  fold_left (fun acc c => 10 * acc + digit_value c) ds 0.

(** A file name is acceptable when its base name ends in digits whose
    number lies in [1, 100]. *)
Definition acceptable (name : str) : bool :=
  let ds := trailing_digits (base_name name) in
  negb (is_empty ds) && (1 <=? value ds) && (value ds <=? 100).

End Spec.

(** ** A literal reading of the rule on file names *)

Module Literal.

(** The whole run of digits a string ends in. *)
Definition digit_run (s : str) : str := rev (leading_digits (rev s)).

(** "The base name does not end in 1-3 digits or the trailing digits parse
    to a number outside [1,100]", the trailing digits being the whole
    run. *)
Definition refused (base : str) : Prop :=
  ~ (1 <= length (digit_run base) <= 3)%nat
  \/ ~ (1 <= Spec.value (digit_run base) <= 100).

End Literal.

(** * Properties *)

(** ** Numbers: results of the arithmetic are never NaN on finite operands *)

Section NumberFacts.

Lemma iter_pos_preserves {A : Type} (P : A -> Prop) (f : A -> A) :
  (forall x, P x -> P (f x)) ->
  forall n x, P x -> P (iter_pos f n x).
Proof.
  intros Hf n; induction n as [n IH | n IH | ]; intros x Hx; simpl; auto.
Qed.

Lemma shr_1_nonneg mrs : 0 <= shr_m mrs -> 0 <= shr_m (shr_1 mrs).
Proof.
  destruct mrs as [m r s]; simpl.
  destruct m as [ | p | p]; simpl; intros H; try lia;
    destruct p; simpl; lia.
Qed.

Lemma shr_nonneg mrs e n :
  0 <= shr_m mrs -> 0 <= shr_m (fst (shr mrs e n)).
Proof.
  intros H; destruct n as [ | p | p]; simpl; auto.
  apply iter_pos_preserves; auto using shr_1_nonneg.
Qed.

Lemma shr_record_of_loc_m m l : shr_m (shr_record_of_loc m l) = m.
Proof. destruct l as [ | []]; reflexivity. Qed.

Lemma shr_fexp_nonneg m e l :
  0 <= m -> 0 <= shr_m (fst (shr_fexp prec emax m e l)).
Proof.
  intros H; unfold shr_fexp; apply shr_nonneg.
  rewrite shr_record_of_loc_m; exact H.
Qed.

Lemma round_nearest_even_nonneg m l :
  0 <= m -> 0 <= round_nearest_even m l.
Proof.
  intros H; destruct l as [ | []]; simpl; try lia.
  destruct (Z.even m); lia.
Qed.

(** Rounding a non-negative mantissa gives a number of the sign asked
    for, hence not NaN. *)
Lemma binary_round_aux_sign sx mx ex lx :
  0 <= mx -> has_sign sx (binary_round_aux prec emax sx mx ex lx) = true.
Proof.
  intros H; unfold binary_round_aux.
  pose proof (shr_fexp_nonneg mx ex lx H) as H1.
  destruct (shr_fexp prec emax mx ex lx) as [mrs' e']; simpl in H1.
  pose proof (shr_fexp_nonneg _ e' loc_Exact
                (round_nearest_even_nonneg _ (loc_of_shr_record mrs') H1))
    as H2.
  destruct (shr_fexp prec emax
              (round_nearest_even (shr_m mrs') (loc_of_shr_record mrs'))
              e' loc_Exact) as [mrs'' e'']; simpl in H2.
  destruct (shr_m mrs'') as [ | p | p]; try lia.
  - simpl; apply eqb_reflx.
  - destruct (e'' <=? emax - prec); simpl; apply eqb_reflx.
Qed.

Lemma has_sign_not_nan s x : has_sign s x = true -> is_nan x = false.
Proof. destruct x; simpl; congruence. Qed.

Lemma binary_round_sign sx mx ex :
  has_sign sx (binary_round prec emax sx mx ex) = true.
Proof.
  unfold binary_round.
  destruct (shl_align mx ex _) as [mz ez].
  apply binary_round_aux_sign; lia.
Qed.

Lemma binary_normalize_not_nan m e sz :
  is_nan (binary_normalize prec emax m e sz) = false.
Proof.
  destruct m as [ | p | p]; simpl; try reflexivity;
    eapply has_sign_not_nan, binary_round_sign.
Qed.

Lemma of_Z_not_nan z : is_nan (of_Z z) = false.
Proof. apply binary_normalize_not_nan. Qed.


Lemma mul_not_nan x y :
  is_finite x = true -> is_finite y = true -> is_nan (mul x y) = false.
Proof.
  destruct x as [s1|s1| |s1 m1 e1], y as [s2|s2| |s2 m2 e2];
    simpl; try discriminate; intros _ _; try reflexivity.
  eapply has_sign_not_nan, binary_round_aux_sign; lia.
Qed.

Lemma add_not_nan_l x y :
  is_finite x = true -> is_nan y = false -> is_nan (add x y) = false.
Proof.
  destruct x as [s1|s1| |s1 m1 e1], y as [s2|s2| |s2 m2 e2];
    simpl; try discriminate; intros _ _; try reflexivity.
  - destruct s1, s2; reflexivity.
  - apply binary_normalize_not_nan.
Qed.

Lemma add_not_nan_r x y :
  is_nan x = false -> is_finite y = true -> is_nan (add x y) = false.
Proof.
  destruct x as [s1|s1| |s1 m1 e1], y as [s2|s2| |s2 m2 e2];
    simpl; try discriminate; intros _ _; try reflexivity.
  - destruct s1, s2; reflexivity.
  - apply binary_normalize_not_nan.
Qed.

Lemma round_not_nan x : is_nan x = false -> is_nan (round x) = false.
Proof.
  destruct x as [s|s| |s m e]; simpl; try discriminate; intros _;
    try reflexivity.
  destruct e as [ | k | k]; try reflexivity.
  match goal with |- context [if ?b then _ else _] => destruct b end;
    [reflexivity | apply of_Z_not_nan].
Qed.

(** [Math.max(0, y)] is at least 0 unless [y] is NaN. *)
Lemma max_zero_nonneg y :
  is_nan y = false -> leb (of_Z 0) (max (of_Z 0) y) = true.
Proof.
  destruct y as [s|s| |s m e]; simpl; try discriminate; intros _;
    destruct s; reflexivity.
Qed.

End NumberFacts.

Lemma digit_cases d :
  0 <= d <= 9 ->
  d = 0 \/ d = 1 \/ d = 2 \/ d = 3 \/ d = 4 \/ d = 5 \/ d = 6 \/ d = 7
  \/ d = 8 \/ d = 9.
Proof. lia. Qed.

(** Splits a digit hypothesis into its ten cases. *)
Ltac each_digit H :=
  apply digit_cases in H;
  repeat (destruct H as [H | H]); subst.

(** ** Strings: the code normalizer *)

Section NormalizerFacts.

Import DashboardCharts.

Lemma match_here_class p c s :
  match_here (Class p) (c :: s) = if p c then Some ([c], s) else None.
Proof.
  unfold match_here; cbn [matcher].
  destruct (p c); [ | reflexivity].
  cbn [length].
  replace (S (length s) - length s)%nat with 1%nat by lia.
  reflexivity.
Qed.

(** Replacing every match of [/\D/g] by the empty string keeps the digits,
    in order; the fuel of the search suffices. *)
Lemma replace_all_from_non_digit fuel s :
  (length s < fuel)%nat ->
  replace_all_from fuel re_non_digit (lit "") s = filter is_digit s.
Proof.
  revert s; induction fuel as [ | fuel IH]; intros s Hlen; [lia | ].
  destruct s as [ | c s].
  - reflexivity.
  - simpl in Hlen.
    cbn [replace_all_from]; unfold re_non_digit.
    rewrite match_here_class; simpl filter.
    destruct (is_digit c); simpl.
    + f_equal; apply IH; lia.
    + apply IH; lia.
Qed.

Lemma replace_all_non_digit s :
  replace_all re_non_digit (lit "") s = filter is_digit s.
Proof. apply replace_all_from_non_digit; lia. Qed.

Lemma concat_repeat_singleton {A : Type} (x : A) n :
  concat (repeat [x] n) = repeat x n.
Proof. induction n; simpl; congruence. Qed.

Lemma padStart_zero n s :
  padStart n (lit "0") s = repeat "0"%char (n - length s) ++ s.
Proof.
  unfold padStart; destruct (Nat.leb_spec n (length s)) as [H | H].
  - replace (n - length s)%nat with 0%nat by lia; reflexivity.
  - change (lit "0") with ["0"%char]; cbv iota.
    change (concat (repeat ["0"%char] (n - length s)))
      with (concat (repeat (A := list ascii) ["0"%char] (n - length s))).
    rewrite concat_repeat_singleton, firstn_all2;
      [reflexivity | rewrite repeat_length; lia].
Qed.

Lemma slice_0 n s : slice 0 n s = firstn n s.
Proof. unfold slice; simpl; rewrite Nat.sub_0_r; reflexivity. Qed.

(** The normalizer of the code is the normalizer of the specification. *)
Lemma useDigitsToKwh_code c :
  code (useDigitsToKwh c)
  = Spec.normalize (match c with Some s => s | None => [] end).
Proof.
  unfold useDigitsToKwh, Spec.normalize; cbn [code].
  rewrite slice_0, padStart_zero, replace_all_non_digit.
  destruct c; reflexivity.
Qed.

Lemma normalize_length s : length (Spec.normalize s) = 3%nat.
Proof.
  unfold Spec.normalize; rewrite length_firstn, length_app, repeat_length.
  lia.
Qed.

Lemma forallb_firstn {A : Type} (p : A -> bool) n l :
  forallb p l = true -> forallb p (firstn n l) = true.
Proof.
  revert l; induction n as [ | n IH]; intros [ | x l]; simpl; auto.
  intros H; apply andb_prop in H as [Hx Hl]; rewrite Hx; simpl; auto.
Qed.

Lemma forallb_filter_same {A : Type} (p : A -> bool) l :
  forallb p (filter p l) = true.
Proof.
  induction l as [ | x l IH]; simpl; auto.
  destruct (p x) eqn:E; simpl; [rewrite E | ]; auto.
Qed.

Lemma forallb_repeat {A : Type} (p : A -> bool) x n :
  p x = true -> forallb p (repeat x n) = true.
Proof. intros H; induction n; simpl; [ | rewrite H]; auto. Qed.

Lemma normalize_digits s : forallb is_digit (Spec.normalize s) = true.
Proof.
  unfold Spec.normalize; apply forallb_firstn.
  rewrite forallb_app, forallb_filter_same, forallb_repeat; reflexivity.
Qed.

Lemma is_digit_value c :
  is_digit c = true -> 0 <= digit_value c <= 9.
Proof.
  unfold is_digit, digit_value; cbv zeta; intros H.
  apply andb_prop in H as [H1 H2].
  apply Nat.leb_le in H1, H2; lia.
Qed.

Lemma is_digit_char c :
  is_digit c = true -> c = Spec.digit_char (digit_value c).
Proof.
  intros H; pose proof (is_digit_value c H) as Hv.
  unfold Spec.digit_char, digit_value in *.
  replace (48 + Z.to_nat (Z.of_nat (nat_of_ascii c) - 48))%nat
    with (nat_of_ascii c) by lia.
  symmetry; apply ascii_nat_embedding.
Qed.

Lemma digit_char_is_digit d :
  0 <= d <= 9 -> is_digit (Spec.digit_char d) = true.
Proof. intros H; each_digit H; reflexivity. Qed.

Lemma digit_char_value d :
  0 <= d <= 9 -> digit_value (Spec.digit_char d) = d.
Proof. intros H; each_digit H; reflexivity. Qed.

(** Every code, whatever the route parameter, consists of three digit
    characters, and the three quantities are the numbers of these digits. *)
Lemma useDigitsToKwh_digits c :
  exists h sol g : Z,
    (0 <= h <= 9) /\ (0 <= sol <= 9) /\ (0 <= g <= 9) /\
    useDigitsToKwh c =
      {| code := [Spec.digit_char h; Spec.digit_char sol; Spec.digit_char g];
         homeKWh := of_Z h; solarKWh := of_Z sol; gridKWh := of_Z g |}.
Proof.
  pose proof (useDigitsToKwh_code c) as Hc.
  set (raw := match c with Some s => s | None => [] end) in Hc.
  pose proof (normalize_length raw) as Hl.
  pose proof (normalize_digits raw) as Hd.
  unfold useDigitsToKwh in *; cbn [code] in Hc.
  rewrite Hc; clear Hc.
  destruct (Spec.normalize raw) as [ | a [ | b [ | d [ | ? ?]]]];
    try discriminate Hl.
  simpl in Hd.
  apply andb_prop in Hd as [Ha Hd].
  apply andb_prop in Hd as [Hb Hd].
  apply andb_prop in Hd as [Hd _].
  exists (digit_value a), (digit_value b), (digit_value d).
  repeat split; try (apply is_digit_value; assumption).
  simpl; unfold Number_char; rewrite Ha, Hb, Hd.
  rewrite <- (is_digit_char a Ha), <- (is_digit_char b Hb),
    <- (is_digit_char d Hd); reflexivity.
Qed.

End NormalizerFacts.

(** ** The flow derivation on digits *)

Section FlowFacts.

Import DashboardCharts.

(** C1.  For every digit triple, the three solar flows add up to [solar],
    the three home sources add up to [home], and all six are at least 0.
    The grid digit enters neither function. *)
Theorem flows_partition (h sol g : Z) :
  0 <= h <= 9 -> 0 <= sol <= 9 -> 0 <= g <= 9 ->
  let sf := allocSolarFlows (of_Z sol) in
  let hs := allocHomeSources (of_Z h) (toHome sf) (toBattery sf) in
  add (add (toBattery sf) (toHome sf)) (toGrid sf) = of_Z sol
  /\ add (add (fromSolar hs) (fromBattery hs)) (fromGrid hs) = of_Z h
  /\ eqb (add (add (toBattery sf) (toHome sf)) (toGrid sf)) (of_Z sol) = true
  /\ eqb (add (add (fromSolar hs) (fromBattery hs)) (fromGrid hs)) (of_Z h)
     = true
  /\ leb (of_Z 0) (toBattery sf) = true
  /\ leb (of_Z 0) (toHome sf) = true
  /\ leb (of_Z 0) (toGrid sf) = true
  /\ leb (of_Z 0) (fromSolar hs) = true
  /\ leb (of_Z 0) (fromBattery hs) = true
  /\ leb (of_Z 0) (fromGrid hs) = true.
Proof.
  intros Hh Hs _.
  each_digit Hh; each_digit Hs; vm_compute; repeat split; reflexivity.
Qed.

Lemma flows_partition_witness :
  (0 <= 7 <= 9) /\ (0 <= 8 <= 9) /\ (0 <= 9 <= 9) /\
  let sf := allocSolarFlows (of_Z 8) in
  let hs := allocHomeSources (of_Z 7) (toHome sf) (toBattery sf) in
  add (add (toBattery sf) (toHome sf)) (toGrid sf) = of_Z 8
  /\ add (add (fromSolar hs) (fromBattery hs)) (fromGrid hs) = of_Z 7
  /\ eqb (add (add (toBattery sf) (toHome sf)) (toGrid sf)) (of_Z 8) = true
  /\ eqb (add (add (fromSolar hs) (fromBattery hs)) (fromGrid hs)) (of_Z 7)
     = true
  /\ leb (of_Z 0) (toBattery sf) = true
  /\ leb (of_Z 0) (toHome sf) = true
  /\ leb (of_Z 0) (toGrid sf) = true
  /\ leb (of_Z 0) (fromSolar hs) = true
  /\ leb (of_Z 0) (fromBattery hs) = true
  /\ leb (of_Z 0) (fromGrid hs) = true.
Proof.
  split; [lia | split; [lia | split; [lia | ]]].
  apply (flows_partition 7 8 9); lia.
Defined.

(** The battery share of every solar digit is +0. *)
Lemma toBattery_zero sol :
  0 <= sol <= 9 -> toBattery (allocSolarFlows (of_Z sol)) = pzero.
Proof. intros H; each_digit H; vm_compute; reflexivity. Qed.

Lemma toBattery_nonneg sol :
  0 <= sol <= 9 -> leb (of_Z 0) (toBattery (allocSolarFlows (of_Z sol))) = true.
Proof. intros H; rewrite (toBattery_zero sol H); reflexivity. Qed.

Lemma of_Z_digit_inj a b :
  0 <= a <= 9 -> 0 <= b <= 9 -> of_Z a = of_Z b -> a = b.
Proof.
  intros Ha Hb; each_digit Ha; each_digit Hb; intros E;
    solve [reflexivity | vm_compute in E; discriminate E].
Qed.

End FlowFacts.

(** ** The values the dashboard computes from a code *)

Section BundleFacts.

Import DashboardCharts.

Variable sin_impl cos_impl : number -> number.

(** C2.  Whatever the route parameter (absent, empty, without digits), the
    normalized code is the one the specification describes: the digits of
    the input, left-padded with '0' to three characters, cut to the first
    three.  It has length 3 and holds digit characters only; the function is
    total, and ["report"], the empty string and a missing parameter all give
    ["000"]. *)
Theorem normalizer_three_digits (c : option str) :
  code (useDigitsToKwh c)
  = Spec.normalize (match c with Some s => s | None => [] end)
  /\ length (code (useDigitsToKwh c)) = 3%nat
  /\ forallb is_digit (code (useDigitsToKwh c)) = true
  /\ code (useDigitsToKwh (Some (lit "report"))) = lit "000"
  /\ code (useDigitsToKwh (Some (lit ""))) = lit "000"
  /\ code (useDigitsToKwh None) = lit "000".
Proof.
  rewrite useDigitsToKwh_code.
  split; [reflexivity | ].
  split; [apply normalize_length | ].
  split; [apply normalize_digits | ].
  repeat split; vm_compute; reflexivity.
Qed.

(** C4.  The code "333": digits (3,3,3); nothing goes to the battery or the
    home and 3 to the grid; the home takes 3 from the grid; the total is 9,
    the emissions are (3+3)*0.45, which is the number 2.7, and the avoided
    emissions 3*0.45, which is the number 1.35. *)
Theorem code_333 :
  let b := DashboardCharts sin_impl cos_impl (Some (lit "333")) in
  normalized b = lit "333"
  /\ homeKWh (digits b) = of_Z 3
  /\ solarKWh (digits b) = of_Z 3
  /\ gridKWh (digits b) = of_Z 3
  /\ solarAllocation b
     = {| toBattery := pzero; toHome := pzero; toGrid := of_Z 3 |}
  /\ homeAllocation b
     = {| fromSolar := pzero; fromBattery := pzero; fromGrid := of_Z 3 |}
  /\ totalKWh b = of_Z 9
  /\ emissionsKg b = mul (add (of_Z 3) (of_Z 3)) (decimal 45 2)
  /\ emissionsKg b = decimal 27 1
  /\ avoidedKg b = mul (of_Z 3) (decimal 45 2)
  /\ avoidedKg b = decimal 135 2.
Proof.
  intros b; subst b; unfold DashboardCharts.
  cbn [normalized digits solarAllocation homeAllocation totalKWh
       emissionsKg avoidedKg].
  repeat split; vm_compute; reflexivity.
Qed.



(** C9.  For every solar digit [floor(solar * 0.11)] is 0, so nothing is
    ever routed to the battery; the home then takes nothing from the
    battery, and the gauge is 0 for every code. *)
Theorem battery_always_zero (h sol : Z) (c : option str) :
  0 <= h <= 9 -> 0 <= sol <= 9 ->
  floor (mul (of_Z sol) (decimal 11 2)) = pzero
  /\ toBattery (allocSolarFlows (of_Z sol)) = pzero
  /\ fromBattery
       (allocHomeSources (of_Z h) (toHome (allocSolarFlows (of_Z sol)))
          (toBattery (allocSolarFlows (of_Z sol)))) = pzero
  /\ min (of_Z 100) (mul (toBattery (allocSolarFlows (of_Z sol))) (of_Z 10))
     = pzero
  /\ toBattery (solarAllocation (DashboardCharts sin_impl cos_impl c))
     = pzero
  /\ fromBattery (homeAllocation (DashboardCharts sin_impl cos_impl c))
     = pzero
  /\ gaugeVal (DashboardCharts sin_impl cos_impl c) = pzero.
Proof.
  intros Hh Hs.
  split; [apply (toBattery_zero sol Hs) | ].
  split; [apply (toBattery_zero sol Hs) | ].
  split; [each_digit Hh; each_digit Hs; vm_compute; reflexivity | ].
  split; [rewrite (toBattery_zero sol Hs); reflexivity | ].
  clear h sol Hh Hs.
  unfold DashboardCharts;
    cbn [solarAllocation homeAllocation gaugeVal].
  destruct (useDigitsToKwh_digits c) as (h & sol & g & Hh & Hs & Hg & E).
  rewrite E; cbn [solarKWh homeKWh].
  split; [apply (toBattery_zero sol Hs) | ].
  split; [each_digit Hh; each_digit Hs; vm_compute; reflexivity | ].
  rewrite (toBattery_zero sol Hs); reflexivity.
Qed.


End BundleFacts.

(** ** The two synthesized series *)

Section SeriesFacts.

Import DashboardCharts.

Variable sin_impl cos_impl : number -> number.

(** The loop of [buildSeries] appends one point per counter value. *)
Lemma buildSeries_loop_spec h s g n : forall i out,
  buildSeries_loop sin_impl cos_impl h s g n i out
  = out ++ map (fun k => weekPoint sin_impl cos_impl h s g (i + Z.of_nat k))
               (seq 0 n).
Proof.
  induction n as [ | n IH]; intros i out; cbn [buildSeries_loop].
  - cbn [seq map]; rewrite app_nil_r; reflexivity.
  - rewrite IH, <- app_assoc; cbn [seq map app].
    rewrite Z.add_0_r; do 2 f_equal.
    rewrite <- seq_shift, map_map.
    apply map_ext; intros k; f_equal; lia.
Qed.

Lemma buildSeries_spec h s g :
  buildSeries sin_impl cos_impl h s g
  = map (fun k => weekPoint sin_impl cos_impl h s g (Z.of_nat k)) (seq 0 12).
Proof.
  unfold buildSeries; rewrite buildSeries_loop_spec; reflexivity.
Qed.



Lemma Math_sin_finite :
  (forall x, is_finite x = true -> is_finite (sin_impl x) = true) ->
  forall x, is_finite x = true -> is_finite (Math_sin sin_impl x) = true.
Proof. intros H [s | s | | s m e] Hx; simpl; auto. Qed.

Lemma Math_cos_finite :
  (forall x, is_finite x = true -> is_finite (cos_impl x) = true) ->
  forall x, is_finite x = true -> is_finite (Math_cos cos_impl x) = true.
Proof. intros H [s | s | | s m e] Hx; simpl; auto. Qed.

Lemma perturbed_nonneg d trig :
  0 <= d <= 9 -> is_finite trig = true ->
  leb (of_Z 0) (Spec.perturbed trig (of_Z d)) = true.
Proof.
  intros Hd Ht; unfold Spec.perturbed.
  apply max_zero_nonneg, add_not_nan_l;
    [ each_digit Hd; reflexivity | ].
  apply round_not_nan, mul_not_nan; [exact Ht | ].
  each_digit Hd; reflexivity.
Qed.

Lemma swung_nonneg base trig :
  is_finite (div base (of_Z 5)) = true ->
  is_finite (div base (of_Z 2)) = true ->
  is_finite trig = true ->
  leb (of_Z 0) (Spec.swung trig base) = true.
Proof.
  intros H5 H2 Ht; unfold Spec.swung.
  apply max_zero_nonneg, round_not_nan, add_not_nan_r; [ | exact H2].
  apply mul_not_nan; assumption.
Qed.

(** The phases of the points are finite numbers. *)
Lemma phase_finite (i : nat) (p : Z) :
  (i < 13)%nat -> In p [3; 4; 5] ->
  is_finite (Spec.phase (Z.of_nat i) p) = true.
Proof.
  intros Hi Hp.
  do 13 (destruct i as [ | i];
         [ cbn [In] in Hp; destruct Hp as [<- | [<- | [<- | []]]];
           vm_compute; reflexivity | ]).
  lia.
Qed.

(** The flows of a solar digit divide by 5 and by 2 to finite numbers. *)
Lemma flows_divide sol :
  0 <= sol <= 9 ->
  let sf := allocSolarFlows (of_Z sol) in
  is_finite (div (toHome sf) (of_Z 5)) = true
  /\ is_finite (div (toHome sf) (of_Z 2)) = true
  /\ is_finite (div (toGrid sf) (of_Z 5)) = true
  /\ is_finite (div (toGrid sf) (of_Z 2)) = true.
Proof. intros H; each_digit H; vm_compute; repeat split; reflexivity. Qed.

(** C6.  For every code the weekly series has 12 entries and the hourly
    series 10, and every numeric field of every entry is at least 0,
    provided the engine's sine and cosine of a finite number are finite
    numbers. *)
Theorem series_lengths_nonneg (c : option str) :
  (forall x, is_finite x = true -> is_finite (sin_impl x) = true) ->
  (forall x, is_finite x = true -> is_finite (cos_impl x) = true) ->
  let b := DashboardCharts sin_impl cos_impl c in
  length (series b) = 12%nat
  /\ length (daySeries b) = 10%nat
  /\ Forall (fun p => leb (of_Z 0) (temperature p) = true
                      /\ leb (of_Z 0) (humidity p) = true
                      /\ leb (of_Z 0) (grid p) = true) (series b)
  /\ Forall (fun p => leb (of_Z 0) (d_toHome p) = true
                      /\ leb (of_Z 0) (orientation p) = true) (daySeries b).
Proof.
  intros Hsin Hcos b; subst b; unfold DashboardCharts.
  cbn [series daySeries].
  destruct (useDigitsToKwh_digits c) as (h & sol & g & Hh & Hs & Hg & E).
  rewrite E; cbn [homeKWh solarKWh gridKWh].
  rewrite buildSeries_spec, !length_map, !length_seq.
  split; [reflexivity | split; [reflexivity | ]].
  split; apply Forall_forall; intros p Hp;
    apply in_map_iff in Hp as (k & <- & Hk); apply in_seq in Hk.
  - replace (Z.of_nat k) with (Z.of_nat (S k) - 1) by lia.
    unfold weekPoint; cbn [temperature humidity grid].
    replace (Z.of_nat (S k) - 1 + 1) with (Z.of_nat (S k)) by lia.
    repeat split.
    + apply (perturbed_nonneg sol _ Hs), Math_sin_finite; [exact Hsin | ].
      apply phase_finite; [lia | simpl; auto].
    + apply (perturbed_nonneg h _ Hh), Math_cos_finite; [exact Hcos | ].
      apply phase_finite; [lia | simpl; auto].
    + apply (perturbed_nonneg g _ Hg), Math_sin_finite; [exact Hsin | ].
      apply phase_finite; [lia | simpl; auto].
  - destruct (flows_divide sol Hs) as (A5 & A2 & B5 & B2).
    unfold dayPoint; cbn [d_toHome orientation].
    split.
    + apply (swung_nonneg _ _ A5 A2), Math_sin_finite; [exact Hsin | ].
      apply phase_finite; [lia | simpl; auto].
    + apply (swung_nonneg _ _ B5 B2), Math_cos_finite; [exact Hcos | ].
      apply phase_finite; [lia | simpl; auto].
Qed.

End SeriesFacts.

(** ** The regular expressions of the upload form *)

Section RegExpFacts.

Import UploadAndPickLeaflet.

(** A repetition followed by [$] succeeds exactly when the whole rest of
    the input is in the class and its length is within the bounds. *)
Lemma repeat_to_end p s : forall lo hi,
  repeat_m p lo hi s (fun s' => matcher EndOfInput s' (fun r => Some r))
  = if forallb p s && (lo <=? length s)%nat && fits hi (length s)
    then Some [] else None.
Proof.
  induction s as [ | c s IH]; intros lo hi; cbn [repeat_m].
  - destruct lo, hi; reflexivity.
  - rewrite IH; cbn [forallb length matcher].
    destruct (p c); cbn [andb].
    + destruct hi as [[ | h] | ]; cbn [may_take taken fits pred].
      * rewrite !andb_false_r; destruct lo; reflexivity.
      * destruct lo as [ | lo]; cbn [pred];
          change (S (length s) <=? S h)%nat with (length s <=? h)%nat;
          [ | change (S lo <=? S (length s))%nat
                with (lo <=? length s)%nat ];
          destruct (forallb p s && _ && _); reflexivity.
      * destruct lo as [ | lo]; cbn [pred];
          [ | change (S lo <=? S (length s))%nat
                with (lo <=? length s)%nat ];
          destruct (forallb p s && _ && _); reflexivity.
    + destruct lo; reflexivity.
Qed.

Lemma match_here_to_end p lo hi s :
  match_here (Cat (Repeat p lo hi) EndOfInput) s
  = if forallb p s && (lo <=? length s)%nat && fits hi (length s)
    then Some (s, []) else None.
Proof.
  unfold match_here; cbn [matcher]; rewrite repeat_to_end.
  destruct (forallb p s && _ && _); [ | reflexivity].
  cbn [length]; rewrite Nat.sub_0_r, firstn_all; reflexivity.
Qed.

Lemma match_here_trailing s :
  match_here re_trailing s
  = if forallb is_digit s && (1 <=? length s)%nat && (length s <=? 3)%nat
    then Some (s, []) else None.
Proof. apply match_here_to_end. Qed.

Lemma match_here_extension s :
  match_here re_extension s
  = match s with
    | [] => None
    | c :: t =>
        if is_dot c && negb (is_empty t)
           && forallb (fun x => negb (is_dot x)) t
        then Some (s, []) else None
    end.
Proof.
  destruct s as [ | c t]; [reflexivity | ].
  unfold match_here, re_extension; cbn [matcher].
  destruct (is_dot c); [ | reflexivity].
  rewrite repeat_to_end; cbn [fits andb].
  rewrite andb_true_r.
  replace (1 <=? length t)%nat with (negb (is_empty t))
    by (destruct t; reflexivity).
  rewrite andb_comm.
  destruct (negb (is_empty t) && _); [ | reflexivity].
  cbn [length]; rewrite Nat.sub_0_r.
  change (S (length t)) with (length (c :: t)); rewrite firstn_all.
  reflexivity.
Qed.

(** Stripping the extension with [/\.[^.]+$/] gives the base name. *)
Lemma replace_extension name :
  replace re_extension (lit "") name = Spec.base_name name.
Proof.
  unfold replace; induction name as [ | c t IH]; [reflexivity | ].
  cbn [exec Spec.base_name]; rewrite match_here_extension.
  change (Ascii.eqb c ".") with (is_dot c).
  change (fun x => negb (Ascii.eqb x ".")) with (fun x => negb (is_dot x)).
  destruct (is_dot c && negb (is_empty t) && _); [reflexivity | ].
  rewrite <- IH.
  destruct (exec re_extension t) as [[[pre m] rest] | ]; reflexivity.
Qed.

Lemma leading_digits_all l :
  forallb is_digit l = true -> leading_digits l = l.
Proof.
  induction l as [ | c l IH]; cbn [forallb leading_digits]; [reflexivity | ].
  intros H; apply andb_prop in H as [Hc Hl]; rewrite Hc, IH; auto.
Qed.

Lemma leading_digits_app a b :
  leading_digits (a ++ b)
  = if forallb is_digit a then a ++ leading_digits b else leading_digits a.
Proof.
  induction a as [ | c a IH]; cbn [app forallb leading_digits];
    [reflexivity | ].
  destruct (is_digit c); cbn [andb]; [ | reflexivity].
  rewrite IH; destruct (forallb is_digit a); reflexivity.
Qed.

Lemma forallb_rev {A : Type} (p : A -> bool) l :
  forallb p (rev l) = forallb p l.
Proof.
  induction l as [ | x l IH]; [reflexivity | ].
  cbn [rev forallb]; rewrite forallb_app, IH; cbn [forallb].
  rewrite andb_true_r; apply andb_comm.
Qed.

(** The trailing digits of a string that is itself at most three digits are
    the string; a first character that does not make such a string changes
    nothing. *)
Lemma trailing_digits_whole s :
  forallb is_digit s = true -> (length s <= 3)%nat ->
  Spec.trailing_digits s = s.
Proof.
  intros Hd Hl; unfold Spec.trailing_digits.
  rewrite leading_digits_all by (rewrite forallb_rev; exact Hd).
  rewrite firstn_all2 by (rewrite length_rev; exact Hl).
  apply rev_involutive.
Qed.

Lemma trailing_digits_cons c s :
  forallb is_digit (c :: s) && (length (c :: s) <=? 3)%nat = false ->
  Spec.trailing_digits (c :: s) = Spec.trailing_digits s.
Proof.
  intros H; unfold Spec.trailing_digits; f_equal.
  cbn [rev]; rewrite leading_digits_app, forallb_rev.
  destruct (forallb is_digit s) eqn:Hs; [ | reflexivity].
  cbn [leading_digits].
  rewrite leading_digits_all by (rewrite forallb_rev; exact Hs).
  destruct (is_digit c) eqn:Hc; [ | rewrite app_nil_r; reflexivity].
  cbn [forallb] in H; rewrite Hc, Hs in H; cbn [andb] in H.
  apply Nat.leb_gt in H; cbn [length] in H.
  rewrite firstn_app, length_rev.
  replace (3 - length s)%nat with 0%nat by lia.
  cbn [firstn]; rewrite app_nil_r; reflexivity.
Qed.

(** The group of [/(\d{1,3})$/] captures the trailing digits, and the
    expression fails to match when there are none. *)
Lemma match_trailing s :
  match_group1 re_trailing s
  = if is_empty (Spec.trailing_digits s) then None
    else Some (Spec.trailing_digits s).
Proof.
  unfold match_group1; induction s as [ | c t IH]; [reflexivity | ].
  cbn [exec]; rewrite match_here_trailing.
  destruct (forallb is_digit (c :: t)) eqn:Hd; cbn [andb].
  - change (1 <=? length (c :: t))%nat with true; cbn [andb].
    destruct (Nat.leb_spec (length (c :: t)) 3) as [Hl | Hl].
    + rewrite trailing_digits_whole by assumption; reflexivity.
    + rewrite trailing_digits_cons
        by (rewrite Hd; apply Nat.leb_gt in Hl; rewrite Hl; reflexivity).
      rewrite <- IH.
      destruct (exec re_trailing t) as [[[pre m] rest] | ]; reflexivity.
  - rewrite trailing_digits_cons by (rewrite Hd; reflexivity).
    rewrite <- IH.
    destruct (exec re_trailing t) as [[[pre m] rest] | ]; reflexivity.
Qed.

End RegExpFacts.

(** ** The upload form *)

Section UploadFacts.

Import UploadAndPickLeaflet.

Lemma digit_not_space c : is_digit c = true -> is_space c = false.
Proof.
  unfold is_digit, is_space; cbv zeta; intros H.
  apply andb_prop in H as [H1 H2]; apply Nat.leb_le in H1, H2.
  apply orb_false_intro; [apply orb_false_intro | ].
  - apply andb_false_intro2, Nat.leb_gt; lia.
  - apply Nat.eqb_neq; lia.
  - apply Nat.eqb_neq; lia.
Qed.

(** [parseInt] of a run of digits is the number the run denotes. *)
Lemma parseInt10_digits ds :
  forallb is_digit ds = true -> is_empty ds = false ->
  parseInt10 ds = of_Z (Spec.value ds).
Proof.
  destruct ds as [ | c t]; [discriminate | ]; intros Hd _.
  pose proof Hd as Hd'; cbn [forallb] in Hd'.
  apply andb_prop in Hd' as [Hc Ht].
  unfold parseInt10; cbn [skip_space].
  rewrite (digit_not_space c Hc).
  clear Ht.
  destruct c as [[] [] [] [] [] [] [] []]; try discriminate Hc;
    cbv beta iota zeta; rewrite (leading_digits_all _ Hd); reflexivity.
Qed.

Lemma value_bounds ds :
  forallb is_digit ds = true -> (length ds <= 3)%nat ->
  0 <= Spec.value ds < 1000.
Proof.
  intros Hd Hl.
  destruct ds as [ | a [ | b [ | c [ | ? ?]]]]; cbn [length] in Hl;
    try lia; cbn [forallb] in Hd; unfold Spec.value; cbn [fold_left];
    repeat match goal with
           | H : _ && _ = true |- _ => apply andb_prop in H as [? ?]
           | H : is_digit _ = true |- _ => apply is_digit_value in H
           end; lia.
Qed.

Lemma trailing_digits_are_digits s :
  forallb is_digit (Spec.trailing_digits s) = true
  /\ (length (Spec.trailing_digits s) <= 3)%nat.
Proof.
  unfold Spec.trailing_digits; rewrite forallb_rev, length_rev; split.
  - apply forallb_firstn.
    induction (rev s) as [ | c l IH]; cbn [leading_digits];
      [reflexivity | ].
    destruct (is_digit c) eqn:E; cbn [forallb]; [rewrite E | ]; auto.
  - rewrite length_firstn; lia.
Qed.

(** How the integers below 1000 compare with 1 and with 100 as numbers. *)
Lemma small_numbers z :
  0 <= z < 1000 ->
  is_nan (of_Z z) = false
  /\ ltb (of_Z z) (of_Z 1) = (z <? 1)
  /\ gtb (of_Z z) (of_Z 100) = (100 <? z).
Proof.
  intros Hz.
  assert (A : forallb
            (fun n => let k := Z.of_nat n in
               negb (is_nan (of_Z k))
               && Bool.eqb (ltb (of_Z k) (of_Z 1)) (k <? 1)
               && Bool.eqb (gtb (of_Z k) (of_Z 100)) (100 <? k))
            (seq 0 1000) = true) by (vm_compute; reflexivity).
  rewrite forallb_forall in A.
  specialize (A (Z.to_nat z)); cbv zeta in A.
  rewrite Z2Nat.id in A by lia.
  assert (Hin : In (Z.to_nat z) (seq 0 1000)) by (apply in_seq; lia).
  apply A in Hin.
  apply andb_prop in Hin as [Hin H3]; apply andb_prop in Hin as [H1 H2].
  apply negb_true_iff in H1; apply eqb_prop in H2, H3; auto.
Qed.

(** The numbers from 1 to 100 print as their decimal digits, and padding
    these to three characters gives the three digits of the number. *)
Lemma code_of_number n :
  1 <= n <= 100 ->
  exists s, String_number (of_Z n) = Some s
            /\ padStart 3 (lit "0") s = Spec.three_digits n.
Proof.
  intros Hn.
  assert (A : forallb
            (fun k => let z := Z.of_nat k in
               match String_number (of_Z z) with
               | Some s =>
                   String.eqb
                     (string_of_list_ascii (padStart 3 (lit "0") s))
                     (string_of_list_ascii (Spec.three_digits z))
               | None => false
               end)
            (seq 1 100) = true) by (vm_compute; reflexivity).
  rewrite forallb_forall in A.
  specialize (A (Z.to_nat n)); cbv zeta in A.
  rewrite Z2Nat.id in A by lia.
  assert (Hin : In (Z.to_nat n) (seq 1 100)) by (apply in_seq; lia).
  apply A in Hin.
  destruct (String_number (of_Z n)) as [s | ]; [ | discriminate].
  exists s; split; [reflexivity | ].
  apply String.eqb_eq in Hin.
  apply (f_equal list_ascii_of_string) in Hin.
  rewrite !list_ascii_of_string_of_list_ascii in Hin; exact Hin.
Qed.

(** What [extractTrailingNumber] returns: for an acceptable name the number
    of its trailing digits and no message, else no number and a message. *)
Lemma extractTrailingNumber_spec name :
  let ds := Spec.trailing_digits (Spec.base_name name) in
  let x := extractTrailingNumber name in
  if Spec.acceptable name
  then num x = Some (of_Z (Spec.value ds)) /\ error x = []
  else num x = None /\ is_empty (error x) = false.
Proof.
  intros ds x; subst x; unfold extractTrailingNumber, Spec.acceptable.
  rewrite replace_extension, match_trailing; fold ds.
  destruct (trailing_digits_are_digits (Spec.base_name name)) as [Hd Hl].
  fold ds in Hd, Hl.
  destruct (is_empty ds) eqn:He; cbn [negb andb].
  - split; reflexivity.
  - rewrite (parseInt10_digits ds Hd He).
    destruct (small_numbers _ (value_bounds ds Hd Hl)) as (N & L & G).
    rewrite N, L, G; cbn [orb].
    rewrite Z.ltb_antisym, (Z.ltb_antisym (Spec.value ds) 100).
    destruct (1 <=? Spec.value ds); cbn [negb andb orb];
      [ | split; reflexivity].
    destruct (Spec.value ds <=? 100); cbn [negb];
      split; reflexivity.
Qed.

(** In every reachable state the number and the message of the file are
    those of the file name, unless no number was ever set. *)
Lemma step_file_invariant st ev :
  (fileNumber st = None
   \/ (fileNumber st = num (extractTrailingNumber (fileName st))
       /\ fileError st = error (extractTrailingNumber (fileName st)))) ->
  let st' := step st ev in
  fileNumber st' = None
  \/ (fileNumber st' = num (extractTrailingNumber (fileName st'))
      /\ fileError st' = error (extractTrailingNumber (fileName st'))).
Proof.
  intros H; destruct ev as [[ | f fs] | p | text | | [ | | la lo]];
    cbn; try exact H.
  right; split; reflexivity.
Qed.

Lemma reachable_file_invariant st :
  reachable st ->
  fileNumber st = None
  \/ (fileNumber st = num (extractTrailingNumber (fileName st))
      /\ fileError st = error (extractTrailingNumber (fileName st))).
Proof.
  intros [evs ->]; unfold run.
  assert (H0 : fileNumber initial = None) by reflexivity.
  apply (or_introl
           (B := fileNumber initial
                 = num (extractTrailingNumber (fileName initial))
                 /\ fileError initial
                    = error (extractTrailingNumber (fileName initial))))
    in H0.
  revert H0; generalize initial.
  induction evs as [ | ev evs IH]; intros st0 H0; cbn [fold_left].
  - exact H0.
  - apply IH, step_file_invariant, H0.
Qed.

Lemma handleContinue_blocked st :
  canContinue st = false -> handleContinue st = Stays.
Proof.
  intros H; unfold handleContinue; rewrite H.
  destruct (marker st); reflexivity.
Qed.

(** When the button is enabled in a reachable state, the file name is
    acceptable, a marker is set, and the form navigates to the dashboard of
    the three digits of the number. *)
Lemma handleContinue_enabled st :
  reachable st -> canContinue st = true ->
  exists n mk,
    1 <= n <= 100
    /\ n = Spec.value (Spec.trailing_digits (Spec.base_name (fileName st)))
    /\ fileNumber st = Some (of_Z n)
    /\ fileError st = []
    /\ marker st = Some mk
    /\ handleContinue st
       = Navigates {| path := lit "/dashboard/" ++ Spec.three_digits n;
                      nav_fileName := fileName st;
                      nav_location := mk |}.
Proof.
  intros Hr Hc; pose proof Hc as Hc'.
  unfold canContinue in Hc'.
  apply andb_prop in Hc' as [Hc' Hm]; apply andb_prop in Hc' as [Hn He].
  destruct (reachable_file_invariant st Hr) as [Hnone | [En Ee]];
    [rewrite Hnone in Hn; discriminate Hn | ].
  pose proof (extractTrailingNumber_spec (fileName st)) as Hx.
  cbv zeta in Hx; rewrite <- En, <- Ee in Hx.
  destruct (Spec.acceptable (fileName st)) eqn:Hacc;
    [ | destruct Hx as [Hx _]; rewrite Hx in Hn; discriminate Hn].
  destruct Hx as [Hnum Herr].
  unfold Spec.acceptable in Hacc.
  apply andb_prop in Hacc as [Hacc H100];
    apply andb_prop in Hacc as [_ H1].
  apply Z.leb_le in H1, H100.
  set (n := Spec.value
              (Spec.trailing_digits (Spec.base_name (fileName st)))) in *.
  destruct (marker st) as [mk | ] eqn:Emk; [ | discriminate Hm].
  destruct (code_of_number n (conj H1 H100)) as (s & Hs & Hpad).
  exists n, mk; repeat split; try assumption; try lia.
  unfold handleContinue; rewrite Emk, Hc, Hnum, Hs, Hpad; reflexivity.
Qed.

(** C8.  [extractTrailingNumber] returns a message, and no number, exactly
    when the base name (the name without its extension) does not end in a
    digit or the number of its trailing digits (the last three at most) is
    outside [1, 100]; otherwise it returns that number and no message.  In
    every state the form can reach, it navigates only if the file number is
    such a number and a marker is set, and then to the dashboard of the
    number padded with zeros to three digits; otherwise it stays. *)
Theorem upload_gate (name : str) (st : State) :
  reachable st ->
  let x := extractTrailingNumber name in
  let ds := Spec.trailing_digits (Spec.base_name name) in
  (is_empty (error x) = false
   <-> (ds = [] \/ ~ (1 <= Spec.value ds <= 100)))
  /\ (is_empty (error x) = false -> num x = None)
  /\ (is_empty (error x) = true -> num x = Some (of_Z (Spec.value ds)))
  /\ (forall nav, handleContinue st = Navigates nav ->
        exists n mk,
          1 <= n <= 100
          /\ n = Spec.value
                   (Spec.trailing_digits (Spec.base_name (fileName st)))
          /\ fileNumber st = Some (of_Z n)
          /\ marker st = Some mk
          /\ nav = {| path := lit "/dashboard/" ++ Spec.three_digits n;
                      nav_fileName := fileName st;
                      nav_location := mk |})
  /\ (handleContinue st = Stays <-> canContinue st = false)
  /\ handleContinue st <> NotModelled.
Proof.
  intros Hr x ds.
  pose proof (extractTrailingNumber_spec name) as Hx; cbv zeta in Hx.
  fold x ds in Hx; unfold Spec.acceptable in Hx; fold ds in Hx.
  assert (Hfile :
            (is_empty (error x) = false
             <-> (ds = [] \/ ~ (1 <= Spec.value ds <= 100)))
            /\ (is_empty (error x) = false -> num x = None)
            /\ (is_empty (error x) = true
                -> num x = Some (of_Z (Spec.value ds)))).
  { clearbody x ds.
    assert (Bad : num x = None /\ is_empty (error x) = false ->
                  ds = [] \/ ~ (1 <= Spec.value ds <= 100) ->
                  (is_empty (error x) = false
                   <-> (ds = [] \/ ~ (1 <= Spec.value ds <= 100)))
                  /\ (is_empty (error x) = false -> num x = None)
                  /\ (is_empty (error x) = true
                      -> num x = Some (of_Z (Spec.value ds)))).
    { intros [Hn He] Hout; rewrite He.
      split; [split; auto | split; [auto | discriminate]]. }
    destruct (is_empty ds) eqn:Hempty; cbn [negb andb] in Hx.
    - apply Bad; [exact Hx | left].
      destruct ds; [reflexivity | discriminate Hempty].
    - destruct (Z.leb_spec 1 (Spec.value ds)) as [H1 | H1];
        destruct (Z.leb_spec (Spec.value ds) 100) as [H2 | H2];
        cbn [andb] in Hx;
        try (apply Bad; [exact Hx | right; lia]).
      destruct Hx as [Hn He]; rewrite He; cbn [is_empty].
      split; [split; [discriminate | ] | split; [discriminate | auto]].
      intros [E | E]; [rewrite E in Hempty; discriminate Hempty | lia]. }
  destruct Hfile as (F1 & F2 & F3).
  split; [exact F1 | split; [exact F2 | split; [exact F3 | ]]].
  destruct (canContinue st) eqn:Hc.
  - destruct (handleContinue_enabled st Hr Hc)
      as (n & mk & Hn & En & Hnum & Herr & Hmk & Hnav).
    rewrite Hnav; repeat split; try discriminate.
    intros nav E; injection E as <-.
    exists n, mk; repeat split; try assumption; lia.
  - rewrite (handleContinue_blocked st Hc).
    repeat split; try discriminate; reflexivity.
Qed.

End UploadFacts.

(** ** The theorems at concrete inputs, with the reference engine *)

Section Instances.

Import DashboardCharts UploadAndPickLeaflet ReferenceEngine.

Lemma clamp_finite y : is_finite (clamp y) = true.
Proof.
  unfold clamp; destruct y as [s | [] | | s m e]; cbn [is_nan];
    try reflexivity;
    (destruct (ltb _ _); [reflexivity | ]);
    destruct (ltb _ _); reflexivity.
Qed.

Lemma sin_ref_finite x : is_finite x = true -> is_finite (sin_ref x) = true.
Proof. intros _; apply clamp_finite. Qed.

Lemma cos_ref_finite x : is_finite x = true -> is_finite (cos_ref x) = true.
Proof. intros _; apply clamp_finite. Qed.


Lemma series_lengths_nonneg_witness :
  (forall x, is_finite x = true -> is_finite (sin_ref x) = true)
  /\ (forall x, is_finite x = true -> is_finite (cos_ref x) = true)
  /\ let b := DashboardCharts sin_ref cos_ref (Some (lit "789")) in
     length (series b) = 12%nat
     /\ length (daySeries b) = 10%nat
     /\ Forall (fun p => leb (of_Z 0) (temperature p) = true
                         /\ leb (of_Z 0) (humidity p) = true
                         /\ leb (of_Z 0) (grid p) = true) (series b)
     /\ Forall (fun p => leb (of_Z 0) (d_toHome p) = true
                         /\ leb (of_Z 0) (orientation p) = true)
               (daySeries b).
Proof.
  split; [exact sin_ref_finite | split; [exact cos_ref_finite | ]].
  apply (series_lengths_nonneg sin_ref cos_ref (Some (lit "789"))
           sin_ref_finite cos_ref_finite).
Defined.

Lemma battery_always_zero_witness :
  (0 <= 9 <= 9) /\ (0 <= 9 <= 9)
  /\ floor (mul (of_Z 9) (decimal 11 2)) = pzero
  /\ toBattery (allocSolarFlows (of_Z 9)) = pzero
  /\ fromBattery
       (allocHomeSources (of_Z 9) (toHome (allocSolarFlows (of_Z 9)))
          (toBattery (allocSolarFlows (of_Z 9)))) = pzero
  /\ min (of_Z 100) (mul (toBattery (allocSolarFlows (of_Z 9))) (of_Z 10))
     = pzero
  /\ toBattery
       (solarAllocation (DashboardCharts sin_ref cos_ref (Some (lit "999"))))
     = pzero
  /\ fromBattery
       (homeAllocation (DashboardCharts sin_ref cos_ref (Some (lit "999"))))
     = pzero
  /\ gaugeVal (DashboardCharts sin_ref cos_ref (Some (lit "999"))) = pzero.
Proof.
  split; [lia | split; [lia | ]].
  apply (battery_always_zero sin_ref cos_ref 9 9 (Some (lit "999"))); lia.
Defined.

Lemma upload_gate_witness :
  let here := {| lat := SFopp (decimal 3680837 5);
                 lng := decimal 17472353 5 |} in
  let st := run [FileChange [lit "plan042.ifc"]; MapClick here] in
  reachable st
  /\ error (extractTrailingNumber (lit "report.ifc"))
     = lit "Filename must end in a number (001-100)."
  /\ num (extractTrailingNumber (lit "tower0100.csv")) = Some (of_Z 100)
  /\ handleContinue st
     = Navigates {| path := lit "/dashboard/042";
                    nav_fileName := lit "plan042.ifc";
                    nav_location := here |}.
Proof.
  intros here st.
  assert (Hr : reachable st) by (eexists; reflexivity).
  split; [exact Hr | ].
  destruct (upload_gate (lit "report.ifc") st Hr)
    as (_ & _ & _ & Hnav & _ & _).
  split; [reflexivity | split; [reflexivity | ]].
  destruct (handleContinue st) as [ | nav | ] eqn:E;
    try (vm_compute in E; discriminate E).
  destruct (Hnav nav eq_refl) as (n & mk & _ & Hn & _ & Hmk & ->).
  vm_compute in Hn; subst n.
  vm_compute in Hmk; injection Hmk as <-.
  reflexivity.
Defined.

End Instances.

(** * Further properties of the code *)

(** ** The normalizer beyond three digits and below *)

Section NormalizerMore.

Import DashboardCharts.

(** The record [useDigitsToKwh] returns is determined by its code. *)
Lemma useDigitsToKwh_by_code c1 c2 :
  code (useDigitsToKwh c1) = code (useDigitsToKwh c2) ->
  useDigitsToKwh c1 = useDigitsToKwh c2.
Proof.
  unfold useDigitsToKwh; cbn [code]; intros E; rewrite E; reflexivity.
Qed.

Lemma filter_all {A : Type} (p : A -> bool) l :
  forallb p l = true -> filter p l = l.
Proof.
  induction l as [ | x l IH]; cbn [forallb filter]; [reflexivity | ].
  intros H; apply andb_prop in H as [Hx Hl]; rewrite Hx, IH; auto.
Qed.

(** Three digit characters are left as they are. *)
Lemma normalize_fixed s :
  forallb is_digit s = true -> length s = 3%nat -> Spec.normalize s = s.
Proof.
  intros Hd Hl; unfold Spec.normalize.
  rewrite (filter_all _ _ Hd), Hl; cbn [Nat.sub repeat app].
  apply firstn_all2; lia.
Qed.

(** Normalizing twice is normalizing once: the code the dashboard shows,
    used as a route parameter again, gives the same code and the same three
    quantities. *)
Theorem normalizer_idempotent (c : option str) :
  useDigitsToKwh (Some (code (useDigitsToKwh c))) = useDigitsToKwh c.
Proof.
  apply useDigitsToKwh_by_code.
  rewrite (useDigitsToKwh_code (Some _)).
  apply normalize_fixed; rewrite useDigitsToKwh_code;
    [apply normalize_digits | apply normalize_length].
Qed.

(** Once a route parameter holds three digits, whatever follows them is
    ignored. *)
Theorem normalizer_ignores_tail (s t : str) :
  (3 <= length (filter is_digit s))%nat ->
  useDigitsToKwh (Some (s ++ t)) = useDigitsToKwh (Some s).
Proof.
  intros H; apply useDigitsToKwh_by_code.
  rewrite !useDigitsToKwh_code; unfold Spec.normalize.
  rewrite filter_app, length_app.
  replace (3 - (length (filter is_digit s) + length (filter is_digit t)))%nat
    with 0%nat by lia.
  replace (3 - length (filter is_digit s))%nat with 0%nat by lia.
  cbn [repeat app]; rewrite firstn_app.
  replace (3 - length (filter is_digit s))%nat with 0%nat by lia.
  cbn [firstn]; apply app_nil_r.
Qed.

Lemma normalizer_ignores_tail_witness :
  (3 <= length (filter is_digit (lit "plan-7.8/9")))%nat
  /\ useDigitsToKwh (Some (lit "plan-7.8/9" ++ lit " (copy 12)"))
     = useDigitsToKwh (Some (lit "plan-7.8/9")).
Proof.
  split; [vm_compute; lia | ].
  apply (normalizer_ignores_tail (lit "plan-7.8/9") (lit " (copy 12)")).
  vm_compute; lia.
Defined.

(** A route parameter with fewer than three digits is right-aligned: the
    code is its digits after as many zeros as are missing, so the home
    quantity is 0. *)
Theorem normalizer_short_input (s : str) :
  (length (filter is_digit s) < 3)%nat ->
  code (useDigitsToKwh (Some s))
  = repeat "0"%char (3 - length (filter is_digit s)) ++ filter is_digit s
  /\ homeKWh (useDigitsToKwh (Some s)) = pzero.
Proof.
  intros H.
  assert (E : code (useDigitsToKwh (Some s))
              = repeat "0"%char (3 - length (filter is_digit s))
                ++ filter is_digit s).
  { rewrite useDigitsToKwh_code; unfold Spec.normalize.
    apply firstn_all2; rewrite length_app, repeat_length; lia. }
  split; [exact E | ].
  unfold useDigitsToKwh in *; cbn [code homeKWh] in *; rewrite E.
  destruct (3 - length (filter is_digit s))%nat as [ | n] eqn:En; [lia | ].
  reflexivity.
Qed.

Lemma normalizer_short_input_witness :
  (length (filter is_digit (lit "floor 7")) < 3)%nat
  /\ code (useDigitsToKwh (Some (lit "floor 7"))) = lit "007"
  /\ homeKWh (useDigitsToKwh (Some (lit "floor 7"))) = pzero.
Proof.
  split; [vm_compute; lia | ].
  destruct (normalizer_short_input (lit "floor 7")) as [E H];
    [vm_compute; lia | ].
  split; [rewrite E; reflexivity | exact H].
Defined.

End NormalizerMore.

(** ** What the dashboard shows, digit by digit *)

Section DashboardMore.

Import DashboardCharts Rendered.

Variable sin_impl cos_impl : number -> number.

(** The two allocations in closed form.  Of the solar digit nothing goes to
    the battery, 1 goes to the home from 6 upwards and the rest to the grid;
    the home takes that 1 from solar only if its own digit is at least 3,
    nothing from the battery, and the rest from the grid. *)
Theorem flows_closed_form (h sol : Z) :
  0 <= h <= 9 -> 0 <= sol <= 9 ->
  let th := if 6 <=? sol then 1 else 0 in
  let fs := if (6 <=? sol) && (3 <=? h) then 1 else 0 in
  allocSolarFlows (of_Z sol)
  = {| toBattery := of_Z 0; toHome := of_Z th; toGrid := of_Z (sol - th) |}
  /\ allocHomeSources (of_Z h) (of_Z th) (of_Z 0)
     = {| fromSolar := of_Z fs; fromBattery := of_Z 0;
          fromGrid := of_Z (h - fs) |}.
Proof.
  intros Hh Hs; each_digit Hh; each_digit Hs; split; vm_compute; reflexivity.
Qed.

Lemma flows_closed_form_witness :
  (0 <= 4 <= 9) /\ (0 <= 7 <= 9)
  /\ allocSolarFlows (of_Z 7)
     = {| toBattery := of_Z 0; toHome := of_Z 1; toGrid := of_Z 6 |}
  /\ allocHomeSources (of_Z 4) (of_Z 1) (of_Z 0)
     = {| fromSolar := of_Z 1; fromBattery := of_Z 0; fromGrid := of_Z 3 |}.
Proof.
  split; [lia | split; [lia | ]].
  apply (flows_closed_form 4 7); lia.
Defined.

(** For every code the total is the exact sum of the three digits and the
    net export the exact difference of the grid share of solar and the grid
    digit, or 0 when that is negative; nothing is exported unless the solar
    digit exceeds the grid digit. *)
Theorem totals_are_integers (c : option str) :
  exists h sol g : Z,
    (0 <= h <= 9) /\ (0 <= sol <= 9) /\ (0 <= g <= 9)
    /\ normalized (DashboardCharts sin_impl cos_impl c)
       = [Spec.digit_char h; Spec.digit_char sol; Spec.digit_char g]
    /\ totalKWh (DashboardCharts sin_impl cos_impl c) = of_Z (h + sol + g)
    /\ netExported (DashboardCharts sin_impl cos_impl c)
       = of_Z (Z.max (sol - (if 6 <=? sol then 1 else 0) - g) 0)
    /\ (g < sol \/ netExported (DashboardCharts sin_impl cos_impl c) = pzero).
Proof.
  destruct (useDigitsToKwh_digits c) as (h & sol & g & Hh & Hs & Hg & E).
  exists h, sol, g; unfold DashboardCharts.
  cbn [normalized totalKWh netExported]; rewrite E.
  cbn [code homeKWh solarKWh gridKWh].
  split; [exact Hh | split; [exact Hs | split; [exact Hg | ]]].
  split; [reflexivity | ].
  split; [ | split].
  - each_digit Hh; each_digit Hs; each_digit Hg; vm_compute; reflexivity.
  - each_digit Hs; each_digit Hg; vm_compute; reflexivity.
  - destruct (Z.lt_ge_cases g sol) as [Hlt | Hle]; [left; exact Hlt | right].
    each_digit Hs; each_digit Hg; try lia; vm_compute; reflexivity.
Qed.

(** The card "Environmental benefits" shows 0.00 tonnes of coal, 0.00 tonnes
    of CO2 and 0 trees for every code: the largest digit is too small for
    any of the three to round to something else. *)
Theorem benefits_card_always_zero (c : option str) :
  let k := cards (DashboardCharts sin_impl cos_impl c) in
  coal k = Some (lit "0.00") /\ co2 k = Some (lit "0.00") /\ trees k = pzero.
Proof.
  intros k; subst k; unfold cards, DashboardCharts.
  cbn [coal co2 trees digits avoidedKg].
  destruct (useDigitsToKwh_digits c) as (h & sol & g & Hh & Hs & Hg & E).
  rewrite E; cbn [solarKWh].
  each_digit Hs; repeat split; vm_compute; reflexivity.
Qed.

(** The card "Work orders" shows the solar digit modulo 5 plus 1 and the
    home digit modulo 5 plus 1, two integers from 1 to 5. *)
Theorem work_orders_range (c : option str) :
  exists h sol g : Z,
    (0 <= h <= 9) /\ (0 <= sol <= 9) /\ (0 <= g <= 9)
    /\ normalized (DashboardCharts sin_impl cos_impl c)
       = [Spec.digit_char h; Spec.digit_char sol; Spec.digit_char g]
    /\ executing (cards (DashboardCharts sin_impl cos_impl c))
       = of_Z (sol mod 5 + 1)
    /\ finished (cards (DashboardCharts sin_impl cos_impl c))
       = of_Z (h mod 5 + 1)
    /\ 1 <= sol mod 5 + 1 <= 5 /\ 1 <= h mod 5 + 1 <= 5.
Proof.
  destruct (useDigitsToKwh_digits c) as (h & sol & g & Hh & Hs & Hg & E).
  exists h, sol, g; unfold cards, DashboardCharts.
  cbn [normalized executing finished digits]; rewrite E.
  cbn [code homeKWh solarKWh].
  split; [exact Hh | split; [exact Hs | split; [exact Hg | ]]].
  split; [reflexivity | ].
  split; [each_digit Hs; vm_compute; reflexivity | ].
  split; [each_digit Hh; vm_compute; reflexivity | ].
  pose proof (Z.mod_pos_bound sol 5); pose proof (Z.mod_pos_bound h 5); lia.
Qed.

(** The time labels of the two series are W1 to W12 and 0:00 to 9:00,
    whatever the code and the engine. *)
Theorem series_labels (c : option str) :
  map w_t (series (DashboardCharts sin_impl cos_impl c))
  = map lit ["W1"; "W2"; "W3"; "W4"; "W5"; "W6"; "W7"; "W8"; "W9"; "W10";
             "W11"; "W12"]%string
  /\ map d_t (daySeries (DashboardCharts sin_impl cos_impl c))
     = map lit ["0:00"; "1:00"; "2:00"; "3:00"; "4:00"; "5:00"; "6:00";
                "7:00"; "8:00"; "9:00"]%string.
Proof.
  unfold DashboardCharts; cbn [series daySeries].
  rewrite buildSeries_spec, !map_map; split; reflexivity.
Qed.

Lemma perturbed_zero trig :
  is_finite trig = true -> Spec.perturbed trig pzero = pzero.
Proof.
  destruct trig as [[] | [] | | [] m e]; try discriminate; intros _;
    reflexivity.
Qed.

Lemma swung_zero trig :
  is_finite trig = true -> Spec.swung trig pzero = pzero.
Proof.
  destruct trig as [[] | [] | | [] m e]; try discriminate; intros _;
    reflexivity.
Qed.

(** A digit 0 gives a flat line: with an engine whose sine and cosine of a
    finite number are finite, a solar digit 0 makes every temperature and
    every value of the hourly series 0, a home digit 0 every humidity and
    a grid digit 0 every grid value of the weekly series. *)
Theorem zero_digit_flat_series (c : option str) :
  (forall x, is_finite x = true -> is_finite (sin_impl x) = true) ->
  (forall x, is_finite x = true -> is_finite (cos_impl x) = true) ->
  let b := DashboardCharts sin_impl cos_impl c in
  (solarKWh (digits b) = pzero ->
   Forall (fun p => temperature p = pzero) (series b)
   /\ Forall (fun p => d_toHome p = pzero /\ orientation p = pzero)
             (daySeries b))
  /\ (homeKWh (digits b) = pzero ->
      Forall (fun p => humidity p = pzero) (series b))
  /\ (gridKWh (digits b) = pzero ->
      Forall (fun p => grid p = pzero) (series b)).
Proof.
  intros Hsin Hcos b; subst b; unfold DashboardCharts.
  cbn [series daySeries digits].
  rewrite buildSeries_spec.
  assert (Hweek : forall k, In k (seq 0 12) -> forall p, In p [3; 4; 5] ->
            is_finite (Spec.phase (Z.of_nat k + 1) p) = true).
  { intros k Hk p Hp; apply in_seq in Hk.
    replace (Z.of_nat k + 1) with (Z.of_nat (S k)) by lia.
    apply phase_finite; [lia | exact Hp]. }
  split; [ | split].
  - intros E; rewrite E; split; apply Forall_forall; intros p Hp;
      apply in_map_iff in Hp as (k & <- & Hk).
    + apply (perturbed_zero (Math_sin sin_impl (Spec.phase (Z.of_nat k + 1) 3))).
      apply Math_sin_finite; [exact Hsin | ].
      apply Hweek; [exact Hk | simpl; auto].
    + apply in_seq in Hk.
      change (toHome (allocSolarFlows pzero)) with pzero.
      change (toGrid (allocSolarFlows pzero)) with pzero.
      split.
      * apply (swung_zero (Math_sin sin_impl (Spec.phase (Z.of_nat k) 3))).
        apply Math_sin_finite; [exact Hsin | ].
        apply phase_finite; [lia | simpl; auto].
      * apply (swung_zero (Math_cos cos_impl (Spec.phase (Z.of_nat k) 3))).
        apply Math_cos_finite; [exact Hcos | ].
        apply phase_finite; [lia | simpl; auto].
  - intros E; rewrite E; apply Forall_forall; intros p Hp;
      apply in_map_iff in Hp as (k & <- & Hk).
    apply (perturbed_zero (Math_cos cos_impl (Spec.phase (Z.of_nat k + 1) 4))).
    apply Math_cos_finite; [exact Hcos | ].
    apply Hweek; [exact Hk | simpl; auto].
  - intros E; rewrite E; apply Forall_forall; intros p Hp;
      apply in_map_iff in Hp as (k & <- & Hk).
    apply (perturbed_zero (Math_sin sin_impl (Spec.phase (Z.of_nat k + 1) 5))).
    apply Math_sin_finite; [exact Hsin | ].
    apply Hweek; [exact Hk | simpl; auto].
Qed.

End DashboardMore.

(** ** File names: extensions, dots and long runs of digits *)

Section FileNameMore.

Import UploadAndPickLeaflet Trace.

Lemma zero_digit_flat_series_witness :
  (forall x, is_finite x = true
             -> is_finite (ReferenceEngine.sin_ref x) = true)
  /\ (forall x, is_finite x = true
                -> is_finite (ReferenceEngine.cos_ref x) = true)
  /\ let b := DashboardCharts.DashboardCharts ReferenceEngine.sin_ref
                ReferenceEngine.cos_ref (Some (lit "907")) in
     DashboardCharts.solarKWh (DashboardCharts.digits b) = pzero
     /\ Forall (fun p => DashboardCharts.temperature p = pzero)
               (DashboardCharts.series b)
     /\ Forall (fun p => DashboardCharts.d_toHome p = pzero
                         /\ DashboardCharts.orientation p = pzero)
               (DashboardCharts.daySeries b).
Proof.
  split; [exact sin_ref_finite | split; [exact cos_ref_finite | ]].
  intros b.
  assert (E : DashboardCharts.solarKWh (DashboardCharts.digits b) = pzero)
    by reflexivity.
  split; [exact E | ].
  destruct (zero_digit_flat_series ReferenceEngine.sin_ref
              ReferenceEngine.cos_ref (Some (lit "907"))
              sin_ref_finite cos_ref_finite) as [H _].
  exact (H E).
Defined.

Lemma base_name_no_dot s : no_dot s = true -> Spec.base_name s = s.
Proof.
  unfold no_dot; induction s as [ | c t IH]; cbn [forallb Spec.base_name];
    [reflexivity | ].
  intros H; apply andb_prop in H as [Hc Ht].
  change (Ascii.eqb c ".") with (is_dot c).
  apply negb_true_iff in Hc; rewrite Hc; cbn [andb].
  rewrite (IH Ht); reflexivity.
Qed.

Lemma base_name_with_extension b ext :
  is_empty ext = false -> no_dot ext = true ->
  Spec.base_name (b ++ "."%char :: ext) = b.
Proof.
  unfold no_dot; intros Hne Hnd.
  induction b as [ | c t IH]; cbn [app Spec.base_name].
  - change (Ascii.eqb "." ".") with true.
    change (fun x => negb (Ascii.eqb x ".")) with (fun x => negb (is_dot x)).
    rewrite Hne, Hnd; reflexivity.
  - rewrite IH.
    replace (forallb (fun x => negb (Ascii.eqb x ".")) (t ++ "."%char :: ext))
      with false; [rewrite andb_false_r; reflexivity | ].
    rewrite forallb_app; cbn [forallb].
    change (Ascii.eqb "." ".") with true; cbn [negb andb].
    rewrite andb_false_r; reflexivity.
Qed.

Lemma base_name_dot_end b :
  Spec.base_name (b ++ ["."%char]) = b ++ ["."%char].
Proof.
  induction b as [ | c t IH]; cbn [app Spec.base_name].
  - reflexivity.
  - rewrite IH.
    replace (forallb (fun x => negb (Ascii.eqb x ".")) (t ++ ["."%char]))
      with false; [rewrite andb_false_r; reflexivity | ].
    rewrite forallb_app; cbn [forallb].
    change (Ascii.eqb "." ".") with true; cbn [negb andb].
    rewrite andb_false_r; reflexivity.
Qed.

(** What [extractTrailingNumber] returns depends on the trailing digits of
    the base name only. *)
Lemma extractTrailingNumber_by_digits n1 n2 :
  Spec.trailing_digits (Spec.base_name n1)
  = Spec.trailing_digits (Spec.base_name n2) ->
  extractTrailingNumber n1 = extractTrailingNumber n2.
Proof.
  intros E; unfold extractTrailingNumber.
  rewrite !replace_extension, !match_trailing, E; reflexivity.
Qed.

Lemma trailing_digits_of_run pre d :
  forallb is_digit d = true -> length d = 3%nat ->
  Spec.trailing_digits (pre ++ d) = d.
Proof.
  intros Hd Hl; unfold Spec.trailing_digits.
  rewrite rev_app_distr, leading_digits_app, forallb_rev, Hd.
  rewrite firstn_app, length_rev, Hl, Nat.sub_diag, firstn_O, app_nil_r.
  rewrite firstn_all2 by (rewrite length_rev; lia).
  apply rev_involutive.
Qed.

(** Only the last extension is stripped, and it never matters: for a name
    [b.ext] with a non-empty extension free of dots, the result is read off
    the trailing digits of [b], dots inside [b] included. *)
Theorem extension_ignored (b ext : str) :
  is_empty ext = false -> no_dot ext = true ->
  replace re_extension (lit "") (b ++ "."%char :: ext) = b
  /\ let x := extractTrailingNumber (b ++ "."%char :: ext) in
     let ds := Spec.trailing_digits b in
     if negb (is_empty ds) && (1 <=? Spec.value ds) && (Spec.value ds <=? 100)
     then num x = Some (of_Z (Spec.value ds)) /\ error x = []
     else num x = None /\ is_empty (error x) = false.
Proof.
  intros Hne Hnd.
  pose proof (base_name_with_extension b ext Hne Hnd) as Hb.
  split; [rewrite replace_extension; exact Hb | ].
  pose proof (extractTrailingNumber_spec (b ++ "."%char :: ext)) as Hx.
  unfold Spec.acceptable in Hx; rewrite Hb in Hx; exact Hx.
Qed.

Lemma extension_ignored_witness :
  is_empty (lit "ifc") = false /\ no_dot (lit "ifc") = true
  /\ replace re_extension (lit "") (lit "plan.v2.ifc") = lit "plan.v2"
  /\ num (extractTrailingNumber (lit "plan.v2.ifc")) = Some (of_Z 2).
Proof.
  split; [reflexivity | split; [reflexivity | ]].
  destruct (extension_ignored (lit "plan.v2") (lit "ifc") eq_refl eq_refl)
    as [Hb Hx].
  split; [exact Hb | ].
  change (lit "plan.v2" ++ "."%char :: lit "ifc") with (lit "plan.v2.ifc")
    in Hx.
  exact (proj1 Hx).
Defined.

(** A name that begins with its only dot is all extension, and a name that
    ends in a dot keeps the dot: both are refused with the first message,
    whatever digits they hold. *)
Theorem dot_names_refused (b ext : str) :
  is_empty ext = false -> no_dot ext = true ->
  extractTrailingNumber ("."%char :: ext)
  = {| num := None;
       error := lit "Filename must end in a number (001-100)." |}
  /\ extractTrailingNumber (b ++ ["."%char])
     = {| num := None;
          error := lit "Filename must end in a number (001-100)." |}.
Proof.
  intros Hne Hnd; split; unfold extractTrailingNumber;
    rewrite replace_extension, match_trailing.
  - pose proof (base_name_with_extension [] ext Hne Hnd) as E.
    cbn [app] in E; rewrite E; reflexivity.
  - rewrite base_name_dot_end.
    unfold Spec.trailing_digits; rewrite rev_app_distr; reflexivity.
Qed.

Lemma dot_names_refused_witness :
  is_empty (lit "042") = false /\ no_dot (lit "042") = true
  /\ num (extractTrailingNumber (lit ".042")) = None
  /\ num (extractTrailingNumber (lit "plan042.")) = None.
Proof.
  split; [reflexivity | split; [reflexivity | ]].
  destruct (dot_names_refused (lit "plan042") (lit "042") eq_refl eq_refl)
    as [H1 H2].
  split.
  - change (lit ".042") with ("."%char :: lit "042"); rewrite H1; reflexivity.
  - change (lit "plan042.") with (lit "plan042" ++ ["."%char]).
    rewrite H2; reflexivity.
Defined.

(** Of a longer run of digits only the last three count: whatever precedes
    three digits, further digits included, the result is that of the three
    digits alone. *)
Theorem only_last_three_digits (pre d ext : str) :
  forallb is_digit d = true -> length d = 3%nat ->
  is_empty ext = false -> no_dot ext = true ->
  extractTrailingNumber (pre ++ d ++ "."%char :: ext)
  = extractTrailingNumber d.
Proof.
  intros Hd Hl Hne Hnd.
  apply extractTrailingNumber_by_digits.
  rewrite app_assoc, (base_name_with_extension (pre ++ d) ext Hne Hnd).
  rewrite base_name_no_dot.
  - rewrite (trailing_digits_of_run pre d Hd Hl).
    symmetry; apply (trailing_digits_of_run [] d Hd Hl).
  - unfold no_dot; rewrite forallb_forall in Hd |- *.
    intros c Hc; specialize (Hd c Hc).
    destruct c as [[] [] [] [] [] [] [] []]; try discriminate Hd;
      reflexivity.
Qed.

Lemma only_last_three_digits_witness :
  forallb is_digit (lit "100") = true /\ length (lit "100") = 3%nat
  /\ is_empty (lit "ifc") = false /\ no_dot (lit "ifc") = true
  /\ extractTrailingNumber (lit "survey-2024100.ifc")
     = {| num := Some (of_Z 100); error := lit "" |}.
Proof.
  repeat (split; [reflexivity | ]).
  change (lit "survey-2024100.ifc")
    with (lit "survey-2024" ++ lit "100" ++ "."%char :: lit "ifc").
  rewrite (only_last_three_digits (lit "survey-2024") (lit "100") (lit "ifc")
             eq_refl eq_refl eq_refl eq_refl).
  reflexivity.
Defined.

End FileNameMore.

(** ** The upload form over whole sequences of events *)

Section TraceFacts.

Import DashboardCharts UploadAndPickLeaflet Rendered Trace.

Lemma run_snoc evs ev : run (evs ++ [ev]) = step (run evs) ev.
Proof. unfold run; rewrite fold_left_app; reflexivity. Qed.

Lemma last_file_snoc evs ev :
  last_file (evs ++ [ev])
  = match ev with
    | FileChange (f :: _) => Some f
    | _ => last_file evs
    end.
Proof. unfold last_file; rewrite fold_left_app; reflexivity. Qed.

Lemma picked_snoc evs ev :
  picked (evs ++ [ev]) = picked evs || sets_marker ev.
Proof.
  unfold picked; rewrite existsb_app; cbn [existsb].
  rewrite orb_false_r; reflexivity.
Qed.

(** After any sequence of events the marker is set exactly when an event
    set it, and the three fields of the file are those of the file chosen
    last. *)
Lemma trace_invariant evs :
  is_null (marker (run evs)) = negb (picked evs)
  /\ match last_file evs with
     | None =>
         fileName (run evs) = [] /\ fileNumber (run evs) = None
         /\ fileError (run evs) = []
     | Some f =>
         fileName (run evs) = f
         /\ fileNumber (run evs) = num (extractTrailingNumber f)
         /\ fileError (run evs) = error (extractTrailingNumber f)
     end.
Proof.
  induction evs as [ | ev evs IH] using rev_ind.
  - split; [reflexivity | repeat split].
  - rewrite run_snoc, last_file_snoc, picked_snoc.
    destruct IH as [Hm Hf].
    destruct ev as [[ | f fs] | p | text | | [ | | la lo]];
      cbn [step onFileChange setMarker setCenter setSearch setSearchError
           doSearch_settled marker fileName fileNumber fileError
           sets_marker is_null];
      rewrite ?orb_false_r, ?orb_true_r;
      solve [ split; [exact Hm | exact Hf]
            | split; [reflexivity | exact Hf]
            | split; [exact Hm | repeat split] ].
Qed.

Lemma canContinue_trace_aux (evs : list Event) :
  canContinue (run evs)
  = picked evs
    && match last_file evs with
       | Some f => Spec.acceptable f
       | None => false
       end.
Proof.
  destruct (trace_invariant evs) as [Hm Hf]; unfold canContinue.
  rewrite Hm, negb_involutive.
  destruct (last_file evs) as [f | ].
  - destruct Hf as (_ & Hn & He); rewrite Hn, He.
    pose proof (extractTrailingNumber_spec f) as Hx; cbv zeta in Hx.
    destruct (Spec.acceptable f).
    + destruct Hx as [-> ->]; cbn [is_null is_empty negb andb].
      destruct (picked evs); reflexivity.
    + destruct Hx as [-> _]; cbn [is_null negb andb].
      destruct (picked evs); reflexivity.
  - destruct Hf as (_ & -> & _); cbn [is_null negb andb].
    destruct (picked evs); reflexivity.
Qed.

(** The button "Continue" is enabled exactly when some event has set the
    marker and the file chosen last has an acceptable name; earlier files,
    the search text and failed searches play no part. *)
Theorem canContinue_trace (evs : list Event) :
  canContinue (run evs)
  = picked evs
    && match last_file evs with
       | Some f => Spec.acceptable f
       | None => false
       end.
Proof. apply canContinue_trace_aux. Qed.

(** The three digits of the number of a run of one to three digits are the
    run itself, padded with zeros. *)
Lemma three_digits_padStart ds :
  forallb is_digit ds = true -> is_empty ds = false ->
  (length ds <= 3)%nat ->
  Spec.three_digits (Spec.value ds) = padStart 3 (lit "0") ds.
Proof.
  intros Hd Hne Hl.
  assert (Hall : forall a b c, 0 <= a <= 9 -> 0 <= b <= 9 -> 0 <= c <= 9 ->
            Spec.three_digits (100 * a + 10 * b + c)
            = [Spec.digit_char a; Spec.digit_char b; Spec.digit_char c]).
  { intros a b c Ha Hb Hc; unfold Spec.three_digits.
    replace ((100 * a + 10 * b + c) / 100) with a
      by (apply Z.div_unique with (r := 10 * b + c); lia).
    replace ((100 * a + 10 * b + c) / 10) with (10 * a + b)
      by (apply Z.div_unique with (r := c); lia).
    replace ((10 * a + b) mod 10) with b
      by (apply Z.mod_unique with (q := a); lia).
    replace ((100 * a + 10 * b + c) mod 10) with c
      by (apply Z.mod_unique with (q := 10 * a + b); lia).
    reflexivity. }
  destruct ds as [ | a [ | b [ | c [ | ? ?]]]]; cbn [length] in Hl;
    try lia; try discriminate Hne; cbn [forallb] in Hd;
    repeat match goal with
           | H : _ && _ = true |- _ => apply andb_prop in H as [? ?]
           end;
    repeat match goal with
           | H : is_digit ?x = true |- _ =>
               rewrite (is_digit_char x H) at 2;
               apply is_digit_value in H
           end;
    unfold Spec.value; cbn [fold_left].
  - replace (10 * 0 + digit_value a)
      with (100 * 0 + 10 * 0 + digit_value a) by lia.
    rewrite Hall by lia; reflexivity.
  - replace (10 * (10 * 0 + digit_value a) + digit_value b)
      with (100 * 0 + 10 * digit_value a + digit_value b) by lia.
    rewrite Hall by lia; reflexivity.
  - replace (10 * (10 * (10 * 0 + digit_value a) + digit_value b)
             + digit_value c)
      with (100 * digit_value a + 10 * digit_value b + digit_value c) by lia.
    rewrite Hall by lia; reflexivity.
Qed.

(** When the form navigates, it is to the dashboard of the trailing digits
    of the file chosen last, padded with zeros to three characters: "7",
    "07" and "007" all lead to 007, and the name of that file travels with
    the navigation. *)
Theorem navigated_code_round_trip (evs : list Event) (nav : Navigation) :
  handleContinue (run evs) = Navigates nav ->
  exists f,
    last_file evs = Some f
    /\ Spec.acceptable f = true
    /\ picked evs = true
    /\ nav_fileName nav = f
    /\ path nav
       = lit "/dashboard/"
         ++ padStart 3 (lit "0") (Spec.trailing_digits (Spec.base_name f)).
Proof.
  intros Hnav.
  destruct (canContinue (run evs)) eqn:Hc;
    [ | rewrite (handleContinue_blocked _ Hc) in Hnav; discriminate Hnav].
  pose proof Hc as Hc'; rewrite canContinue_trace_aux in Hc'.
  apply andb_prop in Hc' as [Hp Hacc].
  destruct (trace_invariant evs) as [_ Hf].
  destruct (last_file evs) as [f | ]; [ | discriminate Hacc].
  destruct Hf as (Hname & _ & _).
  assert (Hr : reachable (run evs)) by (exists evs; reflexivity).
  destruct (handleContinue_enabled _ Hr Hc)
    as (n & mk & Hn & En & _ & _ & _ & Hgo).
  rewrite Hname in *; subst n.
  destruct (trailing_digits_are_digits (Spec.base_name f)) as [Hd Hl].
  assert (Hne : is_empty (Spec.trailing_digits (Spec.base_name f)) = false).
  { unfold Spec.acceptable in Hacc.
    apply andb_prop in Hacc as [Hacc' _].
    apply andb_prop in Hacc' as [Hacc' _].
    apply negb_true_iff in Hacc'; exact Hacc'. }
  rewrite (three_digits_padStart _ Hd Hne Hl) in Hgo.
  rewrite Hgo in Hnav; injection Hnav as <-.
  exists f; repeat split; assumption.
Qed.

Lemma navigated_code_round_trip_witness :
  let here := {| lat := SFopp (decimal 3680837 5);
                 lng := decimal 17472353 5 |} in
  let evs := [FileChange [lit "old100.csv"]; SearchClick;
              SearchSettled NoResults; MapClick here;
              FileChange [lit "plan.v2-7.ifc"]] in
  handleContinue (run evs)
  = Navigates {| path := lit "/dashboard/007";
                 nav_fileName := lit "plan.v2-7.ifc";
                 nav_location := here |}
  /\ last_file evs = Some (lit "plan.v2-7.ifc")
  /\ padStart 3 (lit "0")
       (Spec.trailing_digits (Spec.base_name (lit "plan.v2-7.ifc")))
     = lit "007".
Proof.
  intros here evs.
  assert (Hgo : handleContinue (run evs)
                = Navigates {| path := lit "/dashboard/007";
                               nav_fileName := lit "plan.v2-7.ifc";
                               nav_location := here |})
    by (vm_compute; reflexivity).
  split; [exact Hgo | ].
  destruct (navigated_code_round_trip evs _ Hgo)
    as (f & Hf & _ & _ & Hname & Hpath).
  cbn [nav_fileName] in Hname; subst f.
  split; [exact Hf | ].
  cbn [path] in Hpath.
  apply (app_inv_head (lit "/dashboard/")); symmetry; exact Hpath.
Defined.

(** Under the file input the form shows nothing until a file is chosen;
    then, for the file chosen last, either the message of its refusal or its
    trailing digits padded to three characters, which is the code the
    button "Continue" navigates to. *)
Theorem statusLine_trace (evs : list Event) :
  statusLine (run evs)
  = match last_file evs with
    | None => ShowsNothing
    | Some f =>
        if Spec.acceptable f
        then ShowsNumber
               (Some (padStart 3 (lit "0")
                        (Spec.trailing_digits (Spec.base_name f))))
        else ShowsError (error (extractTrailingNumber f))
    end.
Proof.
  destruct (trace_invariant evs) as [_ Hf]; unfold statusLine.
  destruct (last_file evs) as [f | ].
  - destruct Hf as (_ & Hn & He); rewrite Hn, He.
    pose proof (extractTrailingNumber_spec f) as Hx; cbv zeta in Hx.
    destruct (Spec.acceptable f) eqn:Hacc.
    + destruct Hx as [-> ->]; cbn [is_empty negb].
      unfold Spec.acceptable in Hacc.
      apply andb_prop in Hacc as [Hacc H100].
      apply andb_prop in Hacc as [Hne H1].
      apply negb_true_iff in Hne; apply Z.leb_le in H1, H100.
      destruct (code_of_number _ (conj H1 H100)) as (s & -> & Hpad).
      destruct (trailing_digits_are_digits (Spec.base_name f)) as [Hd Hl].
      cbn [option_map].
      rewrite Hpad, (three_digits_padStart _ Hd Hne Hl); reflexivity.
    + destruct Hx as [_ ->]; reflexivity.
  - destruct Hf as (_ & -> & ->); reflexivity.
Qed.

Lemma home_low_all_grid h sol :
  0 <= h <= 1 -> 0 <= sol <= 9 ->
  allocHomeSources (of_Z h) (toHome (allocSolarFlows (of_Z sol)))
    (toBattery (allocSolarFlows (of_Z sol)))
  = {| fromSolar := pzero; fromBattery := pzero; fromGrid := of_Z h |}.
Proof.
  intros Hh Hs.
  assert (Hh' : h = 0 \/ h = 1) by lia.
  destruct Hh' as [-> | ->]; each_digit Hs; vm_compute; reflexivity.
Qed.

Lemma useDigitsToKwh_of_digits h sol g :
  0 <= h <= 9 -> 0 <= sol <= 9 -> 0 <= g <= 9 ->
  useDigitsToKwh
    (Some [Spec.digit_char h; Spec.digit_char sol; Spec.digit_char g])
  = {| code := [Spec.digit_char h; Spec.digit_char sol; Spec.digit_char g];
       homeKWh := of_Z h; solarKWh := of_Z sol; gridKWh := of_Z g |}.
Proof.
  intros Hh Hs Hg.
  assert (E : code (useDigitsToKwh
                      (Some [Spec.digit_char h; Spec.digit_char sol;
                             Spec.digit_char g]))
              = [Spec.digit_char h; Spec.digit_char sol; Spec.digit_char g]).
  { rewrite useDigitsToKwh_code; apply normalize_fixed; [ | reflexivity].
    cbn [forallb]; rewrite !digit_char_is_digit by assumption; reflexivity. }
  unfold useDigitsToKwh in *; cbn [code] in E; rewrite E.
  cbn [map nth]; unfold Number_char.
  rewrite !digit_char_is_digit, !digit_char_value by assumption.
  reflexivity.
Qed.

Variable sin_impl cos_impl : number -> number.

(** From the form to the dashboard.  The code the form navigates to is
    already normalized, so the dashboard shows it unchanged, with the
    hundreds, tens and units of the file's number as home, solar and grid.
    A number from 1 to 100 has hundreds 0 or 1: through the form the home
    quantity never exceeds 1 and is drawn from the grid alone. *)
Theorem upload_to_dashboard (evs : list Event) (nav : Navigation) :
  handleContinue (run evs) = Navigates nav ->
  exists (c : str) (n : Z),
    1 <= n <= 100
    /\ path nav = lit "/dashboard/" ++ c
    /\ let b := DashboardCharts sin_impl cos_impl (Some c) in
       normalized b = c
       /\ homeKWh (digits b) = of_Z (n / 100)
       /\ solarKWh (digits b) = of_Z (n / 10 mod 10)
       /\ gridKWh (digits b) = of_Z (n mod 10)
       /\ 0 <= n / 100 <= 1
       /\ homeAllocation b
          = {| fromSolar := pzero; fromBattery := pzero;
               fromGrid := of_Z (n / 100) |}.
Proof.
  intros Hnav.
  destruct (canContinue (run evs)) eqn:Hc;
    [ | rewrite (handleContinue_blocked _ Hc) in Hnav; discriminate Hnav].
  assert (Hr : reachable (run evs)) by (exists evs; reflexivity).
  destruct (handleContinue_enabled _ Hr Hc)
    as (n & mk & Hn & _ & _ & _ & _ & Hgo).
  rewrite Hgo in Hnav; injection Hnav as <-.
  exists (Spec.three_digits n), n.
  split; [exact Hn | split; [reflexivity | ]].
  assert (H100 : 0 <= n / 100 <= 1)
    by (split; [apply Z.div_pos; lia | apply Z.div_le_upper_bound; lia]).
  assert (H10 : 0 <= n / 10 mod 10 <= 9)
    by (pose proof (Z.mod_pos_bound (n / 10) 10); lia).
  assert (H1 : 0 <= n mod 10 <= 9)
    by (pose proof (Z.mod_pos_bound n 10); lia).
  intros b; subst b; unfold DashboardCharts.
  cbn [normalized digits homeAllocation]; unfold Spec.three_digits.
  rewrite useDigitsToKwh_of_digits by lia.
  cbn [code homeKWh solarKWh gridKWh].
  repeat (split; [reflexivity || exact H100 | ]).
  apply home_low_all_grid; assumption.
Qed.

End TraceFacts.

Section TraceInstances.

Import DashboardCharts UploadAndPickLeaflet Rendered Trace.

Lemma upload_to_dashboard_witness :
  let here := {| lat := SFopp (decimal 3680837 5);
                 lng := decimal 17472353 5 |} in
  let evs := [MapClick here; FileChange [lit "tower100.ifc"]] in
  let b := DashboardCharts ReferenceEngine.sin_ref ReferenceEngine.cos_ref
             (Some (lit "100")) in
  handleContinue (run evs)
  = Navigates {| path := lit "/dashboard/100";
                 nav_fileName := lit "tower100.ifc";
                 nav_location := here |}
  /\ normalized b = lit "100"
  /\ homeAllocation b
     = {| fromSolar := pzero; fromBattery := pzero; fromGrid := of_Z 1 |}.
Proof.
  intros here evs b.
  assert (Hgo : handleContinue (run evs)
                = Navigates {| path := lit "/dashboard/100";
                               nav_fileName := lit "tower100.ifc";
                               nav_location := here |})
    by (vm_compute; reflexivity).
  split; [exact Hgo | ].
  destruct (upload_to_dashboard ReferenceEngine.sin_ref
              ReferenceEngine.cos_ref evs _ Hgo)
    as (c & n & Hn & Hpath & Hb).
  cbn [path] in Hpath.
  apply (app_inv_head (lit "/dashboard/")) in Hpath; subst c.
  cbv zeta in Hb; destruct Hb as (Hnorm & Hh & _ & _ & _ & Halloc).
  split; [exact Hnorm | ].
  assert (E : of_Z (n / 100) = of_Z 1) by (rewrite <- Hh; reflexivity).
  rewrite E in Halloc; exact Halloc.
Defined.

End TraceInstances.

(** ** The net export and the gauge *)

Section GaugeFacts.

Import DashboardCharts UploadAndPickLeaflet Rendered.

Variable sin_impl cos_impl : number -> number.



End GaugeFacts.

Section RevisedInstances.

Import DashboardCharts UploadAndPickLeaflet Rendered.



(** C8 as stated fails on a run of more than three digits: the base name of
    a1050.ifc ends in the four digits 1050, which are not one to three
    digits and denote no number of [1, 100], yet the code returns the number
    50 and no message, and the form navigates to /dashboard/050. *)
Lemma long_digit_run_accepted :
  let name := lit "a1050.ifc" in
  let x := extractTrailingNumber name in
  let base := replace re_extension (lit "") name in
  let here := {| lat := pzero; lng := pzero |} in
  ~ (is_empty (error x) = false <-> Literal.refused base)
  /\ base = lit "a1050"
  /\ Literal.digit_run base = lit "1050"
  /\ x = {| num := Some (of_Z 50); error := lit "" |}
  /\ handleContinue (run [FileChange [name]; MapClick here])
     = Navigates {| path := lit "/dashboard/050";
                    nav_fileName := name;
                    nav_location := here |}.
Proof.
  intros name x base here.
  split; [ | repeat split; vm_compute; reflexivity].
  intros [_ H].
  assert (R : Literal.refused base).
  { left; change (length (Literal.digit_run base)) with 4%nat; lia. }
  specialize (H R); vm_compute in H; discriminate H.
Qed.

End RevisedInstances.
